(** * p2pchat: session registry, membership and abuse control

    A shallow embedding of [server/src/sessionManager.js] (class
    [SessionManager]) and of [server/src/socketHandlers.js] (rate limiter,
    abuse tracker and the socket.io event handlers), with the input checks
    of [server/src/index.js] that the handlers are given, followed by the
    properties of the specification that concern them.

    Conventions of the embedding.
    - [Date.now()] is an explicit argument [now : Z] (milliseconds); the
      several reads inside one synchronous call see the same value.
    - [Math.random] is an explicit argument [draw : nat -> nat]: [draw i] is
      [Math.floor(Math.random() * alphabet.length)] of the i-th loop turn.
      The nickname generator of the [unique-names-generator] package is an
      explicit argument [gen : string].
    - A JavaScript [Map] whose iteration order is observable (sessions,
      users) is an insertion-ordered association list, see [JsMap]; the
      rate-limiter maps, which are only read by key and swept, are [gmap]s;
      a JavaScript [Set] is a [gset].
    - Objects stored in a map and mutated in place ([session.users],
      [userLimit.count++]) are written back under their key.
    - Strings are byte strings; [toUpperCase], [trim] and the regular
      expressions are modelled on ASCII.
    - Payload fields are typed: a field is a string or absent, so the
      [typeof] tests of the handlers and the exceptions they guard against
      have no counterpart.
    - [setTimeout] callbacks are kept in a list of pending timers and run by
      an explicit event; the [setInterval] sweeps are events too. *)

From Stdlib Require Import ZArith Ascii String.
From stdpp Require Import gmap strings list fin_maps.

Open Scope string_scope.
Open Scope Z_scope.

(** ** Insertion-ordered maps (JavaScript [Map] with string keys) *)

Module JsMap.
Section Ops.
Context {V : Type}.

(** [Map.prototype.get]; [None] is [undefined]. *)
Fixpoint get (k : string) (m : list (string * V)) : option V :=
  match m with
  | [] => None
  | (k', v) :: m' => if String.eqb k k' then Some v else get k m'
  end.

(** [Map.prototype.has] *)
Definition has (k : string) (m : list (string * V)) : bool :=
  match get k m with Some _ => true | None => false end.

(** [Map.prototype.set]: an existing key keeps its position, a new key is
    appended. *)
Fixpoint set (k : string) (v : V) (m : list (string * V)) : list (string * V) :=
  match m with
  | [] => [(k, v)]
  | (k', v') :: m' =>
      if String.eqb k k' then (k, v) :: m' else (k', v') :: set k v m'
  end.

(** [Map.prototype.delete], the map afterwards. *)
Fixpoint delete (k : string) (m : list (string * V)) : list (string * V) :=
  match m with
  | [] => []
  | (k', v') :: m' =>
      if String.eqb k k' then m' else (k', v') :: delete k m'
  end.

(** [Map.prototype.size] *)
Definition size (m : list (string * V)) : Z := Z.of_nat (length m).

Definition keys (m : list (string * V)) : list string := map fst m.

(** [Array.from(m.values())] *)
Definition values (m : list (string * V)) : list V := map snd m.

(** A list is a map when no key occurs twice. *)
Definition wf (m : list (string * V)) : Prop := NoDup (keys m).
End Ops.
End JsMap.

(** ** Strings *)

Definition upper_ascii (c : ascii) : ascii :=
  let n := nat_of_ascii c in
  if ((97 <=? n) && (n <=? 122))%nat then ascii_of_nat (n - 32) else c.

(** [String.prototype.toUpperCase] on ASCII. *)
Fixpoint toUpperCase (s : string) : string :=
  match s with
  | EmptyString => EmptyString
  | String c r => String (upper_ascii c) (toUpperCase r)
  end.

(** [String.prototype.charAt]: the empty string out of range. *)
Definition charAt (i : nat) (s : string) : string :=
  match String.get i s with
  | Some c => String c EmptyString
  | None => EmptyString
  end.

(** JavaScript truthiness of a value that is a string, [null] or
    [undefined]. *)
Definition truthy (s : option string) : bool :=
  match s with
  | Some EmptyString => false
  | Some _ => true
  | None => false
  end.

(** [a || b] for a nullable string [a]. *)
Definition or_else (a : option string) (b : string) : string :=
  match a with
  | Some EmptyString => b
  | Some s => s
  | None => b
  end.

(** ** Session manager (class [SessionManager]) *)

Record User := mkUser {
  id : string;
  nickname : string;
  joinedAt : Z;
  isAdmin : bool;
  clientIP : option string   (* absent on the creator, see [createSession] *)
}.

Record BanInfo := mkBanInfo {
  banNickname : string;      (* field [nickname] *)
  bannedAt : Z;
  reason : string
}.

Record Session := mkSession {
  code : string;
  createdAt : Z;
  lastActivity : Z;
  adminId : string;
  users : list (string * User);
  publicKeys : list (string * string);
  bannedUsers : list (string * BanInfo)
}.

Definition set_users (u : list (string * User)) (s : Session) : Session :=
  mkSession (code s) (createdAt s) (lastActivity s) (adminId s) u
            (publicKeys s) (bannedUsers s).
Definition set_publicKeys (p : list (string * string)) (s : Session) : Session :=
  mkSession (code s) (createdAt s) (lastActivity s) (adminId s) (users s)
            p (bannedUsers s).
Definition set_bannedUsers (b : list (string * BanInfo)) (s : Session) : Session :=
  mkSession (code s) (createdAt s) (lastActivity s) (adminId s) (users s)
            (publicKeys s) b.
Definition set_lastActivity (t : Z) (s : Session) : Session :=
  mkSession (code s) (createdAt s) t (adminId s) (users s)
            (publicKeys s) (bannedUsers s).

(** The object state of a [SessionManager]: [this.sessions]. *)
Record SessionManager := mkManager {
  sessions : list (string * Session)
}.

Definition SESSION_EXPIRY : Z := 15 * 60 * 1000.
Definition MAX_USERS : Z := 64.

Definition new_manager : SessionManager := mkManager [].

Definition alphabet : string := "ABCDEFGHIJKLMNOPQRSTUVWXYZ0123456789".

(** The loop of [generateSessionCode], [i] turns left, the turn number
    counting up from [k]. *)
Fixpoint generateLoop (draw : nat -> nat) (k i : nat) (code : string) : string :=
  match i with
  | O => code
  | S i' => generateLoop draw (S k) i' (code ++ charAt (draw k) alphabet)
  end.

Definition generateSessionCode (draw : nat -> nat) : string :=
  generateLoop draw 0 8 "".

Definition createSession (now : Z) (draw : nat -> nat) (gen : string)
    (creatorSocketId : string) (customNickname : option string)
    (m : SessionManager) : (string * string * Session) * SessionManager :=
  let code := generateSessionCode draw in
  let nickname := or_else customNickname gen in
  let session := mkSession code now now creatorSocketId [] [] [] in
  let session := set_users
      (JsMap.set creatorSocketId
         (mkUser creatorSocketId nickname now true None) (users session))
      session in
  ((code, nickname, session), mkManager (JsMap.set code session (sessions m))).

(** The object returned by [joinSession]. *)
Inductive JoinResult :=
| JoinNotFound                    (* success:false, error:'Session not found' *)
| JoinFull                        (* success:false, error:'Session is full (max 64 users)' *)
| JoinBanned (bannedNickname : string)
                                  (* success:false, error:'You have been banned ...',
                                     banned:true, bannedNickname *)
| JoinOk (nickname : string) (session : Session).
                                  (* success:true, nickname, session *)

Definition joinSession (now : Z) (gen : string) (code socketId : string)
    (customNickname clientIP : option string) (m : SessionManager)
    : JoinResult * SessionManager :=
  match JsMap.get (toUpperCase code) (sessions m) with
  | None => (JoinNotFound, m)
  | Some session =>
      if JsMap.size (users session) >=? MAX_USERS then (JoinFull, m)
      else
        match (if truthy clientIP
               then JsMap.get (default "" clientIP) (bannedUsers session)
               else None) with
        | Some banInfo => (JoinBanned (banNickname banInfo), m)
        | None =>
            let nickname := or_else customNickname gen in
            let session := set_users
                (JsMap.set socketId
                   (mkUser socketId nickname now false clientIP)
                   (users session)) session in
            let session := set_lastActivity now session in
            (JoinOk nickname session,
             mkManager (JsMap.set (toUpperCase code) session (sessions m)))
        end
  end.

Definition banUser (now : Z) (code : string) (clientIP : option string)
    (nickname : string) (m : SessionManager) : bool * SessionManager :=
  match JsMap.get (toUpperCase code) (sessions m) with
  | Some session =>
      if truthy clientIP then
        let session := set_bannedUsers
            (JsMap.set (default "" clientIP)
               (mkBanInfo nickname now "Kicked by admin")
               (bannedUsers session)) session in
        (true, mkManager (JsMap.set (toUpperCase code) session (sessions m)))
      else (false, m)
  | None => (false, m)
  end.

Definition unbanUser (code clientIP : string) (m : SessionManager)
    : bool * SessionManager :=
  match JsMap.get (toUpperCase code) (sessions m) with
  | Some session =>
      (JsMap.has clientIP (bannedUsers session),
       mkManager (JsMap.set (toUpperCase code)
                    (set_bannedUsers (JsMap.delete clientIP (bannedUsers session))
                                     session)
                    (sessions m)))
  | None => (false, m)
  end.

(** An element of the array returned by [getBannedUsers]. *)
Record BannedEntry := mkBannedEntry {
  be_ip : string;
  be_nickname : string;
  be_bannedAt : Z
}.

Definition getBannedUsers (code : string) (m : SessionManager) : list BannedEntry :=
  match JsMap.get (toUpperCase code) (sessions m) with
  | Some session =>
      map (fun e => mkBannedEntry (fst e) (banNickname (snd e)) (bannedAt (snd e)))
          (bannedUsers session)
  | None => []
  end.

Definition getSession (code : string) (m : SessionManager) : option Session :=
  JsMap.get (toUpperCase code) (sessions m).

(** The [for ... of this.sessions] scan of [getSessionBySocketId]. *)
Fixpoint scanSessions (socketId : string) (l : list (string * Session))
    : option (string * Session) :=
  match l with
  | [] => None
  | (code, session) :: l' =>
      if JsMap.has socketId (users session) then Some (code, session)
      else scanSessions socketId l'
  end.

Definition getSessionBySocketId (socketId : string) (m : SessionManager)
    : option (string * Session) :=
  scanSessions socketId (sessions m).

(** The object returned by [removeUser]. *)
Record RemoveResult := mkRemoveResult {
  rr_code : string;
  rr_user : option User;
  sessionDestroyed : bool;
  remainingUsers : option Z      (* absent when the session is destroyed *)
}.

Definition removeUser (now : Z) (socketId : string) (m : SessionManager)
    : option RemoveResult * SessionManager :=
  match getSessionBySocketId socketId m with
  | None => (None, m)
  | Some (code, session) =>
      let user := JsMap.get socketId (users session) in
      let session := set_users (JsMap.delete socketId (users session)) session in
      let session := set_publicKeys (JsMap.delete socketId (publicKeys session))
                                    session in
      if JsMap.size (users session) =? 0 then
        (Some (mkRemoveResult code user true None),
         mkManager (JsMap.delete code (sessions m)))
      else
        let session := set_lastActivity now session in
        (Some (mkRemoveResult code user false (Some (JsMap.size (users session)))),
         mkManager (JsMap.set code session (sessions m)))
  end.

Definition storePublicKey (code socketId publicKey : string) (m : SessionManager)
    : bool * SessionManager :=
  match JsMap.get (toUpperCase code) (sessions m) with
  | Some session =>
      (true,
       mkManager (JsMap.set (toUpperCase code)
                    (set_publicKeys (JsMap.set socketId publicKey (publicKeys session))
                                    session)
                    (sessions m)))
  | None => (false, m)
  end.

Definition getPublicKeys (code : string) (m : SessionManager)
    : list (string * string) :=
  match JsMap.get (toUpperCase code) (sessions m) with
  | Some session => publicKeys session
  | None => []
  end.

Definition getUsers (code : string) (m : SessionManager) : list User :=
  match JsMap.get (toUpperCase code) (sessions m) with
  | Some session => JsMap.values (users session)
  | None => []
  end.

Definition updateActivity (now : Z) (code : string) (m : SessionManager)
    : SessionManager :=
  match JsMap.get (toUpperCase code) (sessions m) with
  | Some session =>
      mkManager (JsMap.set (toUpperCase code) (set_lastActivity now session)
                           (sessions m))
  | None => m
  end.

Definition cleanupExpiredSessions (now : Z) (m : SessionManager) : SessionManager :=
  mkManager
    (List.filter (fun e => negb (now - lastActivity (snd e) >? SESSION_EXPIRY))
            (sessions m)).

Definition getActiveSessionCount (m : SessionManager) : Z :=
  JsMap.size (sessions m).

Definition getTotalUserCount (m : SessionManager) : Z :=
  fold_left (fun count e => count + JsMap.size (users (snd e))) (sessions m) 0.

(** ** Rate limiting and abuse tracking (module state of socketHandlers.js) *)

(** The objects [{ count, windowStart }] kept in the three limiter maps. *)
Record Limit := mkLimit {
  count : Z;
  windowStart : Z
}.

(** A pending [setTimeout] callback of [trackAbuse]: the closure captures
    [socketId], [ip] and [abuseKey]; [due] is the time it was armed plus its
    delay. *)
Record Timer := mkTimer {
  due : Z;
  t_socketId : string;
  t_ip : string;
  t_abuseKey : string
}.

Record Limiter := mkLimiter {
  messageRateLimiter : gmap string Limit;
  socketRateLimiters : gmap string Limit;
  RATE_LIMIT_WINDOW : Z;
  RATE_LIMIT_MAX : Z;
  blockedSockets : gset string;
  blockedIPs : gset string;
  abuseCounter : gmap string Limit;
  timers : list Timer
}.

Definition ABUSE_THRESHOLD : Z := 50.
Definition ABUSE_WINDOW : Z := 60000.
Definition BLOCK_DELAY : Z := 300000.

Definition new_limiter : Limiter :=
  mkLimiter ∅ ∅ 1000 5 ∅ ∅ ∅ [].

Definition set_messageRateLimiter (x : gmap string Limit) (l : Limiter) : Limiter :=
  mkLimiter x (socketRateLimiters l) (RATE_LIMIT_WINDOW l) (RATE_LIMIT_MAX l)
            (blockedSockets l) (blockedIPs l) (abuseCounter l) (timers l).
Definition set_socketRateLimiters (x : gmap string Limit) (l : Limiter) : Limiter :=
  mkLimiter (messageRateLimiter l) x (RATE_LIMIT_WINDOW l) (RATE_LIMIT_MAX l)
            (blockedSockets l) (blockedIPs l) (abuseCounter l) (timers l).
Definition set_abuseCounter (x : gmap string Limit) (l : Limiter) : Limiter :=
  mkLimiter (messageRateLimiter l) (socketRateLimiters l) (RATE_LIMIT_WINDOW l)
            (RATE_LIMIT_MAX l) (blockedSockets l) (blockedIPs l) x (timers l).
Definition set_config (w n : Z) (l : Limiter) : Limiter :=
  mkLimiter (messageRateLimiter l) (socketRateLimiters l) w n
            (blockedSockets l) (blockedIPs l) (abuseCounter l) (timers l).

(** The template string [`${ip}:${socketId}`]. *)
Definition abuseKey (socketId ip : string) : string := ip ++ ":" ++ socketId.

Definition trackAbuse (now : Z) (socketId ip : string) (l : Limiter) : Limiter :=
  let key := abuseKey socketId ip in
  match abuseCounter l !! key with
  | None => set_abuseCounter (<[key := mkLimit 1 now]> (abuseCounter l)) l
  | Some abuse =>
      if now - windowStart abuse >? ABUSE_WINDOW then
        set_abuseCounter (<[key := mkLimit 1 now]> (abuseCounter l)) l
      else
        let abuse := mkLimit (count abuse + 1) (windowStart abuse) in
        let counter := <[key := abuse]> (abuseCounter l) in
        if count abuse >=? ABUSE_THRESHOLD then
          mkLimiter (messageRateLimiter l) (socketRateLimiters l)
                    (RATE_LIMIT_WINDOW l) (RATE_LIMIT_MAX l)
                    ({[socketId]} ∪ blockedSockets l)
                    ({[ip]} ∪ blockedIPs l)
                    counter
                    (timers l ++ [mkTimer (now + BLOCK_DELAY) socketId ip key])
        else set_abuseCounter counter l
  end.

Definition checkRateLimit (now : Z) (socketId ip : string) (l : Limiter)
    : bool * Limiter :=
  (* socket-based limit *)
  let after_socket : option Limiter :=
    match messageRateLimiter l !! socketId with
    | None =>
        Some (set_messageRateLimiter
                (<[socketId := mkLimit 1 now]> (messageRateLimiter l)) l)
    | Some userLimit =>
        if now - windowStart userLimit >? RATE_LIMIT_WINDOW l then
          Some (set_messageRateLimiter
                  (<[socketId := mkLimit 1 now]> (messageRateLimiter l)) l)
        else if count userLimit >=? RATE_LIMIT_MAX l then None
        else
          Some (set_messageRateLimiter
                  (<[socketId := mkLimit (count userLimit + 1)
                                         (windowStart userLimit)]>
                     (messageRateLimiter l)) l)
    end in
  match after_socket with
  | None => (false, trackAbuse now socketId ip l)
  | Some l1 =>
      (* IP-based limit *)
      let IP_RATE_MAX := RATE_LIMIT_MAX l1 * 3 in
      match socketRateLimiters l1 !! ip with
      | None =>
          (true, set_socketRateLimiters
                   (<[ip := mkLimit 1 now]> (socketRateLimiters l1)) l1)
      | Some ipLimit =>
          if now - windowStart ipLimit >? RATE_LIMIT_WINDOW l1 then
            (true, set_socketRateLimiters
                     (<[ip := mkLimit 1 now]> (socketRateLimiters l1)) l1)
          else if count ipLimit >=? IP_RATE_MAX then
            (false, trackAbuse now socketId ip l1)
          else
            (true, set_socketRateLimiters
                     (<[ip := mkLimit (count ipLimit + 1) (windowStart ipLimit)]>
                        (socketRateLimiters l1)) l1)
      end
  end.

Definition isBlocked (socketId ip : string) (l : Limiter) : bool :=
  bool_decide (socketId ∈ blockedSockets l) || bool_decide (ip ∈ blockedIPs l).

(** The five-minute [setInterval] sweep of the two rate-limit maps. *)
Definition sweepRateLimits (now : Z) (l : Limiter) : Limiter :=
  let fresh (kv : string * Limit) := ¬ (now - windowStart kv.2 > 60000) in
  set_socketRateLimiters (filter fresh (socketRateLimiters l))
    (set_messageRateLimiter (filter fresh (messageRateLimiter l)) l).

(** The body of the [setTimeout] callback armed by [trackAbuse]. *)
Definition unblock (t : Timer) (l : Limiter) : Limiter :=
  mkLimiter (messageRateLimiter l) (socketRateLimiters l)
            (RATE_LIMIT_WINDOW l) (RATE_LIMIT_MAX l)
            (blockedSockets l ∖ {[t_socketId t]})
            (blockedIPs l ∖ {[t_ip t]})
            (delete (t_abuseKey t) (abuseCounter l))
            (timers l).

(** Run, in the order they were armed, the callbacks that are due at [now]
    and drop them from the pending list. *)
Definition runTimers (now : Z) (l : Limiter) : Limiter :=
  let dues := List.filter (fun t => due t <=? now) (timers l) in
  let rest := List.filter (fun t => negb (due t <=? now)) (timers l) in
  let l := fold_left (fun acc t => unblock t acc) dues l in
  mkLimiter (messageRateLimiter l) (socketRateLimiters l)
            (RATE_LIMIT_WINDOW l) (RATE_LIMIT_MAX l)
            (blockedSockets l) (blockedIPs l) (abuseCounter l) rest.

(** ** Input checks injected by index.js *)

Definition is_control (c : ascii) : bool :=
  let n := nat_of_ascii c in
  ((n <=? 8) || (n =? 11) || (n =? 12) || ((14 <=? n) && (n <=? 31)) || (n =? 127))%nat.

(** [\s] on ASCII. *)
Definition is_space (c : ascii) : bool :=
  let n := nat_of_ascii c in
  ((n =? 32) || ((9 <=? n) && (n <=? 13)))%nat.

Definition is_upper_or_digit (c : ascii) : bool :=
  let n := nat_of_ascii c in
  (((65 <=? n) && (n <=? 90)) || ((48 <=? n) && (n <=? 57)))%nat.

Definition is_nick_char (c : ascii) : bool :=
  let n := nat_of_ascii c in
  (((97 <=? n) && (n <=? 122)) || ((65 <=? n) && (n <=? 90))
   || ((48 <=? n) && (n <=? 57)) || (n =? 95) || is_space c)%nat.

Definition chars (s : string) : list ascii := list_ascii_of_string s.
Definition of_chars (l : list ascii) : string := string_of_list_ascii l.

Fixpoint drop_spaces (l : list ascii) : list ascii :=
  match l with
  | c :: l' => if is_space c then drop_spaces l' else l
  | [] => []
  end.

(** [String.prototype.trim] on ASCII. *)
Definition trim (s : string) : string :=
  of_chars (rev (drop_spaces (rev (drop_spaces (chars s))))).

(** index.js [sanitizeInput] on a string argument. *)
Definition index_sanitizeInput (input : string) (maxLength : nat) : string :=
  trim (of_chars (take maxLength
                    (List.filter (fun c => negb (is_control c)) (chars input)))).

(** index.js [isValidSessionCode]: [/^[A-Z0-9]{6,10}$/] on the upper-cased
    code. *)
Definition index_isValidSessionCode (code : string) : bool :=
  let l := chars (toUpperCase code) in
  forallb is_upper_or_digit l && (6 <=? length l)%nat && (length l <=? 10)%nat.

(** [/^[a-zA-Z0-9_\s]{1,30}$/] *)
Definition valid_nickname (s : string) : bool :=
  let l := chars s in
  forallb is_nick_char l && (1 <=? length l)%nat && (length l <=? 30)%nat.

(** The part of the [security] argument of [setupSocketHandlers] that the
    handlers call. *)
Record Security := mkSecurity {
  sanitizeInput : string -> nat -> string;
  isValidSessionCode : string -> bool
}.

(** The defaults of the destructuring in [setupSocketHandlers]. *)
Definition default_security : Security :=
  mkSecurity (fun s _ => s) (fun _ => true).

(** What index.js passes. *)
Definition index_security : Security :=
  mkSecurity index_sanitizeInput index_isValidSessionCode.

(** The nickname clean-up shared by [create-session] and [join-session]:
    [null] unless [data.nickname] is truthy; the sanitized text, or [null]
    when it is non-empty and fails the pattern. *)
Definition customNickname (sec : Security) (nickname : option string)
    : option string :=
  if truthy nickname then
    let c := sanitizeInput sec (default "" nickname) 30 in
    if truthy (Some c) && negb (valid_nickname c) then None else Some c
  else None.

(** ** Event handlers ([setupSocketHandlers]) *)

Record MessageData := mkMessageData {
  m_code : option string;
  encryptedMessage : option string;
  iv : option string;
  messageId : option string;
  timestamp : option Z;
  mediaType : option string;
  rawMediaData : option string;
  replyTo : option string
}.

(** Objects handed to an acknowledgement callback. *)
Inductive Response :=
| RError (error : string)                       (* { success:false, error } *)
| RSuccess                                      (* { success:true } *)
| RCreated (code nickname : string) (users : list User) (adminId : string)
| RJoinRejected (result : JoinResult)           (* the [joinSession] result itself *)
| RJoined (code nickname : string) (users : list User) (adminId : option string)
| RKeys (success : bool) (keys : list (string * string))
| RBannedUsers (bannedUsers : list BannedEntry)
| RSessionInfo (users : list User) (userCount : Z).

(** Payloads of emitted events; the constructor fixes the event name. *)
Inductive Payload :=
| UserJoined (nickname id : string) (userCount : Z)            (* 'user-joined' *)
| PublicKeyShared (senderId publicKey : string)                (* 'public-key-shared' *)
| RateLimited (retryAfter : Z)                                 (* 'rate-limited' *)
| ErrorMsg (message : string)                                  (* 'error' *)
| NewMessage (senderId senderNickname : string) (data : MessageData)
                                                               (* 'new-message' *)
| UserTyping (senderId nickname : string) (isTyping : bool)    (* 'user-typing' *)
| StatusUpdate (messageId status by_ : string)                 (* 'message-status-update' *)
| Kicked                                                       (* 'kicked' *)
| UserKicked (nickname : string) (userCount : Z)               (* 'user-kicked' *)
| BannedUsersUpdated (bannedUsers : list BannedEntry)          (* 'banned-users-updated' *)
| UserMuted (userId nickname : string) (muted : bool)          (* 'user-muted' *)
| UserLeft (nickname : string) (userCount : option Z).         (* 'user-left' *)

(** What a handler asks of the transport. *)
Inductive Out :=
| Callback (sid : string) (r : Response)        (* safeCallback(callback, r) *)
| EmitTo (sid : string) (p : Payload)           (* socket.emit *)
| EmitRoom (room : string) (except : option string) (p : Payload)
                                                (* socket.to(room).emit / io.to(room).emit *)
| RoomJoin (sid room : string)                  (* socket.join *)
| RoomLeave (sid room : string)                 (* socket.leave *)
| ForceDisconnect (sid : string).               (* socket.disconnect(true) *)

(** The module state, the session manager, and the transport's table of
    connected sockets ([io.sockets.sockets]); a socket is kept with
    [socket.clientIP || x-forwarded-for || handshake.address], which may be
    absent. *)
Record Server := mkServer {
  limiter : Limiter;
  manager : SessionManager;
  connected : gmap string (option string)
}.

Inductive Event :=
| Connection (sid : string) (address : option string)
| CreateSession (sid : string) (nickname : option string)
                (draw : nat -> nat) (gen : string)
| JoinSession (sid : string) (code nickname : option string) (gen : string)
| SharePublicKey (sid : string) (code publicKey : option string)
| GetPublicKeys (sid : string) (code : option string)
| SendMessage (sid : string) (data : MessageData)
| TypingEv (sid : string) (code : option string) (isTyping : bool)
| MessageDelivered (sid : string) (messageId senderId : option string)
| MessageRead (sid : string) (messageIds senderId : option string)
| KickUser (sid : string) (code targetUserId : option string)
| UnbanUser (sid : string) (code userIP : option string)
| GetBannedUsers (sid : string) (code : option string)
| MuteUser (sid : string) (code targetUserId : option string) (muted : bool)
| Disconnect (sid : string)
| GetSessionInfo (sid : string) (code : option string)
| LeaveSession (sid : string)
| TimersDue                        (* the event loop runs the due timeouts *)
| RateLimitSweep                   (* the setInterval of socketHandlers.js *)
| SessionSweep.                    (* the setInterval of index.js *)

Definition with_limiter (l : Limiter) (s : Server) : Server :=
  mkServer l (manager s) (connected s).
Definition with_manager (m : SessionManager) (s : Server) : Server :=
  mkServer (limiter s) m (connected s).

(** [setupSocketHandlers]: the rate-limit configuration is applied when it
    is truthy. *)
Definition setupSocketHandlers (window max : option Z) : Server :=
  let w := match window with Some w => if w =? 0 then 1000 else w | None => 1000 end in
  let n := match max with Some n => if n =? 0 then 5 else n | None => 5 end in
  mkServer (set_config w n new_limiter) new_manager ∅.

Definition strlen (s : option string) : Z :=
  match s with Some s => Z.of_nat (String.length s) | None => 0 end.

Section Handlers.
Variable sec : Security.
Variable now : Z.

(** [io.on('connection')]: a blocked socket or address is disconnected
    before any handler is registered. *)
Definition on_connection (sid : string) (address : option string) (s : Server)
    : Server * list Out :=
  match connected s !! sid with
  | Some _ => (s, [])            (* connection ids are unique *)
  | None =>
      let clientIP := or_else address "unknown" in
      if isBlocked sid clientIP (limiter s) then (s, [ForceDisconnect sid])
      else (mkServer (limiter s) (manager s) (<[sid := address]> (connected s)), [])
  end.

(** The handlers below run for a connected socket [sid] whose closure
    holds [clientIP]. *)
Variable sid : string.
Variable clientIP : string.

Definition on_create_session (nickname : option string) (draw : nat -> nat)
    (gen : string) (s : Server) : Server * list Out :=
  if isBlocked sid clientIP (limiter s) then (s, [])
  else
    let custom := customNickname sec nickname in
    if getActiveSessionCount (manager s) >=? 1000 then
      (s, [Callback sid (RError "Server is at capacity. Please try again later.")])
    else
      let '((code, nickname, _), m) :=
        createSession now draw gen sid custom (manager s) in
      (with_manager m s,
       [RoomJoin sid code;
        Callback sid (RCreated code nickname (getUsers code m) sid)]).

Definition on_join_session (code nickname : option string) (gen : string)
    (s : Server) : Server * list Out :=
  if isBlocked sid clientIP (limiter s) then (s, [])
  else if negb (truthy code) then
    (s, [Callback sid (RError "Session code required")])
  else
    let code := toUpperCase (sanitizeInput sec (default "" code) 10) in
    if negb (isValidSessionCode sec code) then
      (s, [Callback sid (RError "Invalid session code format")])
    else
      let custom := customNickname sec nickname in
      match joinSession now gen code sid custom (Some clientIP) (manager s) with
      | (JoinOk nickname session, m) =>
          let room := toUpperCase code in
          (with_manager m s,
           [RoomJoin sid room;
            EmitRoom room (Some sid)
              (UserJoined nickname sid (JsMap.size (users session)));
            Callback sid
              (RJoined room nickname (getUsers room m)
                 (if truthy (Some (adminId session))
                  then Some (adminId session) else None))])
      | (result, m) => (with_manager m s, [Callback sid (RJoinRejected result)])
      end.

Definition on_share_public_key (code publicKey : option string) (s : Server)
    : Server * list Out :=
  if negb (truthy code) || negb (truthy publicKey) then (s, [])
  else
    let code := default "" code in
    let publicKey := default "" publicKey in
    let '(_, m) := storePublicKey code sid publicKey (manager s) in
    (with_manager m s, [EmitRoom code (Some sid) (PublicKeyShared sid publicKey)]).

(** A missing [code] makes [getPublicKeys] throw; the handler answers
    from its [catch]. *)
Definition on_get_public_keys (code : option string) (s : Server)
    : Server * list Out :=
  match code with
  | Some code => (s, [Callback sid (RKeys true (getPublicKeys code (manager s)))])
  | None => (s, [Callback sid (RKeys false [])])
  end.

Definition on_send_message (data : MessageData) (s : Server)
    : Server * list Out :=
  if isBlocked sid clientIP (limiter s) then (s, [])
  else if negb (truthy (m_code data)) then (s, [])
  else
    let code := default "" (m_code data) in
    if negb (isValidSessionCode sec code) then (s, [])
    else
      let '(ok, l) := checkRateLimit now sid clientIP (limiter s) in
      let s := with_limiter l s in
      if negb ok then
        (s, [EmitTo sid (RateLimited ((RATE_LIMIT_WINDOW l + 999) / 1000))])
      else
        let totalSize :=
          strlen (encryptedMessage data) + strlen (rawMediaData data) in
        if totalSize >? 30000000 then (s, [])
        else if negb (truthy (iv data)) || (strlen (iv data) >? 100) then (s, [])
        else if negb (truthy (messageId data)) || (strlen (messageId data) >? 50)
        then (s, [])
        else
          match getSessionBySocketId sid (manager s) with
          | None => (s, [EmitTo sid (ErrorMsg "Not in this session")])
          | Some (scode, session) =>
              if negb (String.eqb scode (toUpperCase code)) then
                (s, [EmitTo sid (ErrorMsg "Not in this session")])
              else
                match JsMap.get sid (users session) with
                | None => (s, [])
                | Some user =>
                    (with_manager (updateActivity now code (manager s)) s,
                     [EmitRoom (toUpperCase code) (Some sid)
                        (NewMessage sid (nickname user) data)])
                end
          end.

Definition on_typing (code : option string) (isTyping : bool) (s : Server)
    : Server * list Out :=
  if negb (truthy code) then (s, [])
  else
    match getSessionBySocketId sid (manager s) with
    | None => (s, [])
    | Some (_, session) =>
        match JsMap.get sid (users session) with
        | None => (s, [])
        | Some user =>
            (s, [EmitRoom (toUpperCase (default "" code)) (Some sid)
                   (UserTyping sid (nickname user) isTyping)])
        end
    end.

Definition on_message_status (status : string) (messageId senderId : option string)
    (s : Server) : Server * list Out :=
  if negb (truthy messageId) || negb (truthy senderId) then (s, [])
  else
    (s, [EmitRoom (default "" senderId) None
           (StatusUpdate (default "" messageId) status sid)]).

(** [kick-user]. [session] is one object throughout the handler: the ban
    written by [banUser] and the removal from [session.users] land in the
    same session, which is read back here after the ban. *)
Definition on_kick_user (code targetUserId : option string) (s : Server)
    : Server * list Out :=
  if negb (truthy code) || negb (truthy targetUserId) then
    (s, [Callback sid (RError "Missing required data")])
  else
    let code := default "" code in
    let targetUserId := default "" targetUserId in
    match getSession code (manager s) with
    | None => (s, [Callback sid (RError "Session not found")])
    | Some session =>
        if negb (String.eqb (adminId session) sid) then
          (s, [Callback sid (RError "Only admin can kick users")])
        else if String.eqb targetUserId sid then
          (s, [Callback sid (RError "Cannot kick yourself")])
        else
          match JsMap.get targetUserId (users session) with
          | None => (s, [Callback sid (RError "User not found in session")])
          | Some targetUser =>
              let targetSocket := connected s !! targetUserId in
              let m1 :=
                match targetSocket with
                | Some targetIP =>
                    if truthy targetIP
                    then snd (banUser now code targetIP (nickname targetUser)
                                      (manager s))
                    else manager s
                | None => manager s
                end in
              let session1 := default session (getSession code m1) in
              let session2 :=
                set_users (JsMap.delete targetUserId (users session1)) session1 in
              let m2 := mkManager (JsMap.set (toUpperCase code) session2
                                             (sessions m1)) in
              (with_manager m2 s,
               ((match targetSocket with
                 | Some _ => [RoomLeave targetUserId code; EmitTo targetUserId Kicked]
                 | None => []
                 end)
                ++ [EmitRoom code None
                      (UserKicked (nickname targetUser) (JsMap.size (users session2)));
                    EmitTo sid (BannedUsersUpdated (getBannedUsers code m2));
                    Callback sid RSuccess])%list)
          end
    end.

Definition on_unban_user (code userIP : option string) (s : Server)
    : Server * list Out :=
  if negb (truthy code) || negb (truthy userIP) then
    (s, [Callback sid (RError "Missing required data")])
  else
    let code := default "" code in
    let userIP := default "" userIP in
    match getSession code (manager s) with
    | None => (s, [Callback sid (RError "Session not found")])
    | Some session =>
        if negb (String.eqb (adminId session) sid) then
          (s, [Callback sid (RError "Only admin can unban users")])
        else
          let '(unbanned, m) := unbanUser code userIP (manager s) in
          if unbanned then
            (with_manager m s,
             [EmitTo sid (BannedUsersUpdated (getBannedUsers code m));
              Callback sid RSuccess])
          else
            (with_manager m s, [Callback sid (RError "User not found in ban list")])
    end.

Definition on_get_banned_users (code : option string) (s : Server)
    : Server * list Out :=
  if negb (truthy code) then (s, [Callback sid (RError "Missing session code")])
  else
    let code := default "" code in
    match getSession code (manager s) with
    | None => (s, [Callback sid (RError "Session not found")])
    | Some session =>
        if negb (String.eqb (adminId session) sid) then
          (s, [Callback sid (RError "Only admin can view banned users")])
        else (s, [Callback sid (RBannedUsers (getBannedUsers code (manager s)))])
    end.

Definition on_mute_user (code targetUserId : option string) (muted : bool)
    (s : Server) : Server * list Out :=
  if negb (truthy code) || negb (truthy targetUserId) then
    (s, [Callback sid (RError "Missing required data")])
  else
    let code := default "" code in
    let targetUserId := default "" targetUserId in
    match getSession code (manager s) with
    | None => (s, [Callback sid (RError "Session not found")])
    | Some session =>
        if negb (String.eqb (adminId session) sid) then
          (s, [Callback sid (RError "Only admin can mute users")])
        else
          match JsMap.get targetUserId (users session) with
          | None => (s, [Callback sid (RError "User not found in session")])
          | Some targetUser =>
              (s, [EmitRoom code None
                     (UserMuted targetUserId (nickname targetUser) muted);
                   Callback sid RSuccess])
          end
    end.

(** [disconnect]: the transport has dropped the socket from its table. *)
Definition on_disconnect (s : Server) : Server * list Out :=
  let '(result, m) := removeUser now sid (manager s) in
  let outs :=
    match result with
    | Some r =>
        if sessionDestroyed r then []
        else [EmitRoom (rr_code r) None
                (UserLeft (default "" (nickname <$> rr_user r)) (remainingUsers r))]
    | None => []
    end in
  (mkServer
     (set_messageRateLimiter (delete sid (messageRateLimiter (limiter s)))
                             (limiter s))
     m (delete sid (connected s)),
   outs).

Definition on_get_session_info (code : option string) (s : Server)
    : Server * list Out :=
  if negb (truthy code) then (s, [Callback sid (RError "Code required")])
  else
    let code := default "" code in
    match getSession code (manager s) with
    | Some session =>
        (s, [Callback sid (RSessionInfo (getUsers code (manager s))
                                        (JsMap.size (users session)))])
    | None => (s, [Callback sid (RError "Session not found")])
    end.

Definition on_leave_session (s : Server) : Server * list Out :=
  let '(result, m) := removeUser now sid (manager s) in
  let outs :=
    match result with
    | Some r =>
        RoomLeave sid (rr_code r) ::
        (if sessionDestroyed r then []
         else [EmitRoom (rr_code r) None
                 (UserLeft (default "" (nickname <$> rr_user r))
                           (remainingUsers r))])
    | None => []
    end in
  (with_manager m s, outs).
End Handlers.

(** ** The server as a transition system *)

(** A handler of socket [sid] runs only while the socket is connected; its
    closure holds [clientIP], the address with the ['unknown'] fallback. *)
Definition handle (sid : string) (h : string -> Server -> Server * list Out)
    (s : Server) : Server * list Out :=
  match connected s !! sid with
  | Some address => h (or_else address "unknown") s
  | None => (s, [])
  end.

Definition step (sec : Security) (now : Z) (ev : Event) (s : Server)
    : Server * list Out :=
  match ev with
  | Connection sid address => on_connection sid address s
  | CreateSession sid nickname draw gen =>
      handle sid (fun ip => on_create_session sec now sid ip nickname draw gen) s
  | JoinSession sid code nickname gen =>
      handle sid (fun ip => on_join_session sec now sid ip code nickname gen) s
  | SharePublicKey sid code publicKey =>
      handle sid (fun _ => on_share_public_key sid code publicKey) s
  | GetPublicKeys sid code =>
      handle sid (fun _ => on_get_public_keys sid code) s
  | SendMessage sid data =>
      handle sid (fun ip => on_send_message sec now sid ip data) s
  | TypingEv sid code isTyping =>
      handle sid (fun _ => on_typing sid code isTyping) s
  | MessageDelivered sid messageId senderId =>
      handle sid (fun _ => on_message_status sid "delivered" messageId senderId) s
  | MessageRead sid messageIds senderId =>
      handle sid (fun _ => on_message_status sid "read" messageIds senderId) s
  | KickUser sid code targetUserId =>
      handle sid (fun _ => on_kick_user now sid code targetUserId) s
  | UnbanUser sid code userIP =>
      handle sid (fun _ => on_unban_user sid code userIP) s
  | GetBannedUsers sid code =>
      handle sid (fun _ => on_get_banned_users sid code) s
  | MuteUser sid code targetUserId muted =>
      handle sid (fun _ => on_mute_user sid code targetUserId muted) s
  | Disconnect sid => handle sid (fun _ => on_disconnect now sid) s
  | GetSessionInfo sid code =>
      handle sid (fun _ => on_get_session_info sid code) s
  | LeaveSession sid => handle sid (fun _ => on_leave_session now sid) s
  | TimersDue => (with_limiter (runTimers now (limiter s)) s, [])
  | RateLimitSweep => (with_limiter (sweepRateLimits now (limiter s)) s, [])
  | SessionSweep => (with_manager (cleanupExpiredSessions now (manager s)) s, [])
  end.

(** A run of the server: events with the clock reading at which each is
    handled. *)
Fixpoint run (sec : Security) (trace : list (Z * Event)) (s : Server) : Server :=
  match trace with
  | [] => s
  | (now, ev) :: rest => run sec rest (step sec now ev s).1
  end.

(** The states the server can be in. *)
Definition reachable (sec : Security) (s : Server) : Prop :=
  exists window max trace, s = run sec trace (setupSocketHandlers window max).

(** ** What an event may do to the session manager

    Every handler changes the registry through at most one call of a
    manager method; [kick-user] calls [banUser] and then removes the target
    from [session.users] itself. [mstep] lists these changes, labelled with
    the connection that creates, joins or is removed. *)

Inductive Op :=
| OpCreate (sid code : string)
| OpJoin (sid : string)
| OpRemove (sid : string)
| OpUnban (code ip : string)
| OpOther.

Definition op_of (ev : Event) : Op :=
  match ev with
  | CreateSession sid _ draw _ => OpCreate sid (generateSessionCode draw)
  | JoinSession sid _ _ _ => OpJoin sid
  | Disconnect sid | LeaveSession sid => OpRemove sid
  | UnbanUser _ code ip => OpUnban (toUpperCase (default "" code)) (default "" ip)
  | _ => OpOther
  end.

Inductive mstep : Op -> SessionManager -> SessionManager -> Prop :=
| ms_id op m : mstep op m m
| ms_create now draw gen sid custom m :
    mstep (OpCreate sid (generateSessionCode draw)) m
          (createSession now draw gen sid custom m).2
| ms_join now gen code sid custom ip m :
    mstep (OpJoin sid) m (joinSession now gen code sid custom ip m).2
| ms_remove now sid m :
    mstep (OpRemove sid) m (removeUser now sid m).2
| ms_ban now code ip nick m :
    mstep OpOther m (banUser now code ip nick m).2
| ms_unban code ip m :
    mstep (OpUnban (toUpperCase code) ip) m (unbanUser code ip m).2
| ms_key code sid key m :
    mstep OpOther m (storePublicKey code sid key m).2
| ms_activity now code m :
    mstep OpOther m (updateActivity now code m)
| ms_cleanup now m :
    mstep OpOther m (cleanupExpiredSessions now m)
| ms_kick code target session m :
    getSession code m = Some session ->
    target <> adminId session ->
    mstep OpOther m
      (mkManager (JsMap.set (toUpperCase code)
                    (set_users (JsMap.delete target (users session)) session)
                    (sessions m))).

(** ** Properties of the registry *)

(** The sessions a connection is a member of, in registry order. *)
Definition memberships (sid : string) (m : SessionManager)
    : list (string * Session) :=
  List.filter (fun e => JsMap.has sid (users e.2)) (sessions m).

(** Each connection is a member of at most one live session. *)
Definition single_membership (m : SessionManager) : Prop :=
  forall sid, (length (memberships sid m) <= 1)%nat.


(** Every live session holds at most [MAX_USERS] members. *)
Definition within_capacity (m : SessionManager) : Prop :=
  Forall (fun e => 0 <= JsMap.size (users e.2) <= MAX_USERS) (sessions m).

(** The registry is a map, its keys are their own upper case, and the
    member and ban tables of every session are maps. *)
Definition session_wf (e : string * Session) : Prop :=
  toUpperCase e.1 = e.1 /\ JsMap.wf (users e.2) /\ JsMap.wf (bannedUsers e.2).

Definition registry_wf (m : SessionManager) : Prop :=
  JsMap.wf (sessions m) /\ Forall session_wf (sessions m).

(** A run in which every event satisfies [G] in the state it meets. *)
Fixpoint guarded (sec : Security) (G : Event -> Server -> Prop)
    (trace : list (Z * Event)) (s : Server) : Prop :=
  match trace with
  | [] => True
  | (now, ev) :: rest => G ev s /\ guarded sec G rest (step sec now ev s).1
  end.

(** [create-session] and [join-session] come from a connection that is in
    no session. *)
Definition from_unauthenticated (ev : Event) (s : Server) : Prop :=
  match ev with
  | CreateSession sid _ _ _ | JoinSession sid _ _ _ =>
      getSessionBySocketId sid (manager s) = None
  | _ => True
  end.





(** [checkRateLimit] called once for each clock reading, in turn. *)
Fixpoint checkAll (sid ip : string) (times : list Z) (l : Limiter)
    : list bool * Limiter :=
  match times with
  | [] => ([], l)
  | t :: rest =>
      let '(ok, l1) := checkRateLimit t sid ip l in
      let '(oks, l2) := checkAll sid ip rest l1 in
      (ok :: oks, l2)
  end.

(** Both windows of [(sid, ip)] were opened at [t0] and have counted [k]
    events. *)
Definition window_state (l : Limiter) (sid ip : string) (t0 k : Z) : Prop :=
  messageRateLimiter l !! sid = Some (mkLimit k t0) /\
  socketRateLimiters l !! ip = Some (mkLimit k t0).

(** The limiter configuration is the same in both states. *)
Definition same_config (l l' : Limiter) : Prop :=
  RATE_LIMIT_WINDOW l' = RATE_LIMIT_WINDOW l /\
  RATE_LIMIT_MAX l' = RATE_LIMIT_MAX l.

(** ** What an event may do to the limiter state

    Apart from the timers, the limiter state changes through
    [checkRateLimit] ([send-message]), through the deletion of the
    connection's entry ([disconnect]) and through the periodic sweep. *)

Inductive lstep : Limiter -> Limiter -> Prop :=
| ls_id l : lstep l l
| ls_check now sid ip l : lstep l (checkRateLimit now sid ip l).2
| ls_forget sid l :
    lstep l (set_messageRateLimiter (delete sid (messageRateLimiter l)) l)
| ls_sweep now l : lstep l (sweepRateLimits now l).

(** [trackAbuse] called once for each clock reading, in turn. *)
Definition trackAll (sid ip : string) (times : list Z) (l : Limiter) : Limiter :=
  fold_left (fun acc t => trackAbuse t sid ip acc) times l.

(** The connection or its address is blocked. *)
Definition blocked (sid ip : string) (l : Limiter) : Prop :=
  sid ∈ blockedSockets l \/ ip ∈ blockedIPs l.

(** ** Classes of events *)

(** The events whose handlers only read. *)
Definition read_only (ev : Event) : bool :=
  match ev with
  | GetPublicKeys _ _ | TypingEv _ _ _ | MessageDelivered _ _ _
  | MessageRead _ _ _ | GetBannedUsers _ _ | MuteUser _ _ _ _
  | GetSessionInfo _ _ => true
  | _ => false
  end.

(** ** index.js: schema validation, nonces, connections per address *)

(** A validation schema for a string field. *)
Record Schema := mkSchema {
  required : bool;
  minLength : option nat;
  maxLength : option nat;
  pattern : option (string -> bool);
  sanitize : option (string -> string);
  enum : option (list string);
  sdefault : option string         (* field [default] *)
}.




Definition is_alnum (c : ascii) : bool :=
  let n := nat_of_ascii c in
  (((97 <=? n) && (n <=? 122)) || ((65 <=? n) && (n <=? 90))
   || ((48 <=? n) && (n <=? 57)))%nat.

Definition is_id_char (c : ascii) : bool :=
  let n := nat_of_ascii c in
  (is_alnum c || (n =? 45) || (n =? 95))%nat.

(** A pattern [/^[class]+$/]: at least one character, all in the class. *)
Definition one_or_more (class : ascii -> bool) (s : string) : bool :=
  match chars s with
  | [] => false
  | l => forallb class l
  end.




(** [ValidationSchemas.messageId] *)
Definition messageIdSchema : Schema :=
  mkSchema true (Some 1%nat) (Some 50%nat) (Some (one_or_more is_id_char))
           None None None.

(** [ValidationSchemas.mediaType] *)
Definition mediaTypeSchema : Schema :=
  mkSchema false None None None None (Some ["text"; "voice"; "image"; "file"]) None.



Definition NONCE_EXPIRY : Z := 300000.

(** [checkAndStoreNonce], over the map [usedNonces]. *)
Definition checkAndStoreNonce (now : Z) (nonce : option string)
    (usedNonces : gmap string Z) : bool * gmap string Z :=
  if negb (truthy nonce) then (false, usedNonces)
  else
    match usedNonces !! default "" nonce with
    | Some _ => (false, usedNonces)
    | None => (true, <[default "" nonce := now]> usedNonces)
    end.

(** The one-minute sweep of [usedNonces]. *)
Definition sweepNonces (now : Z) (usedNonces : gmap string Z) : gmap string Z :=
  filter (fun kv : string * Z => ~ (now - kv.2 > NONCE_EXPIRY)) usedNonces.

Definition MAX_CONNECTIONS_PER_IP : Z := 5.
Definition MAX_TOTAL_CONNECTIONS : Z := 5000.

(** The connection middleware of [io.use], over the map [connectionsByIP];
    [clientsCount] is [io.engine.clientsCount] and [ip] the address read
    from the handshake. [true] is [next()], [false] is [next(new Error)]. *)
Definition connectionMiddleware (clientsCount : Z) (ip : string)
    (connectionsByIP : gmap string Z) : bool * gmap string Z :=
  if clientsCount >=? MAX_TOTAL_CONNECTIONS then (false, connectionsByIP)
  else
    let currentCount := default 0 (connectionsByIP !! ip) in
    if currentCount >=? MAX_CONNECTIONS_PER_IP then (false, connectionsByIP)
    else (true, <[ip := currentCount + 1]> connectionsByIP).

(** The [disconnect] handler the middleware registers for an admitted
    socket. *)
Definition connectionClosed (ip : string) (connectionsByIP : gmap string Z)
    : gmap string Z :=
  let count := match connectionsByIP !! ip with
               | Some c => if c =? 0 then 1 else c
               | None => 1
               end in
  if count <=? 1 then delete ip connectionsByIP
  else <[ip := count - 1]> connectionsByIP.

(** Every address in the table has between one and five connections. *)
Definition counts_in_range (connectionsByIP : gmap string Z) : Prop :=
  forall ip c, connectionsByIP !! ip = Some c -> 1 <= c <= MAX_CONNECTIONS_PER_IP.

(** ** Scenarios

    Concrete runs used to exercise the statements below. *)

Definition draw_const (n : nat) : nat -> nat := fun _ => n.

(** A one-character connection id, distinct for distinct [i < 64]. *)
Definition conn_name (i : nat) : string :=
  String (ascii_of_nat (48 + i)) EmptyString.

(** Connections [conn_name i], one per address, that join [code]. *)
Definition joins (code : string) (ids : list nat) : list (Z * Event) :=
  flat_map (fun i =>
    [(0, Connection (conn_name i) (Some ("10.0.0." ++ conn_name i)));
     (0, JoinSession (conn_name i) (Some code) None "Guest")]) ids.

(** ["admin"] opens session AAAAAAAA. *)
Definition opened : list (Z * Event) :=
  [(0, Connection "admin" (Some "1.1.1.1"));
   (0, CreateSession "admin" None (draw_const 0) "Admin")].

(** A session filled to 64 members. *)
Definition full_house : Server :=
  run index_security (opened ++ joins "AAAAAAAA" (seq 0 63))%list
      (setupSocketHandlers None None).

(** The admin and one guest. *)
Definition two_members : Server :=
  run index_security (opened ++ joins "AAAAAAAA" [0%nat])%list
      (setupSocketHandlers None None).

(** The session of [two_members]. *)
Definition two_members_session : Session :=
  mkSession "AAAAAAAA" 0 0 "admin"
    [("admin", mkUser "admin" "Admin" 0 true None);
     ("0", mkUser "0" "Guest" 0 false (Some "10.0.0.0"))]
    [] [].


(** ["admin"] opens AAAAAAAA, ["b"] opens BBBBBBBB and then joins AAAAAAAA. *)
Definition double_join : list (Z * Event) :=
  (opened ++
   [(1, Connection "b" (Some "2.2.2.2"));
    (1, CreateSession "b" (Some "Bob") (draw_const 1) "Guest");
    (2, JoinSession "b" (Some "AAAAAAAA") (Some "Bob") "Guest")])%list.

(** The admin has kicked the guest, whose address 10.0.0.0 is now banned,
    and a new connection ["x"] has arrived from that address. *)
Definition guest_banned : Server :=
  run index_security
      (opened ++ joins "AAAAAAAA" [0%nat] ++
       [(3, KickUser "admin" (Some "AAAAAAAA") (Some "0"));
        (4, Connection "x" (Some "10.0.0.0"))])%list
      (setupSocketHandlers None None).



(** A text message for session AAAAAAAA. *)
Definition hello : MessageData :=
  mkMessageData (Some "AAAAAAAA") (Some "c2VjcmV0") (Some "aXY=") (Some "m-1")
                (Some 0) None None None.

(** ["b"] opens session AAAAAAAA and sends [n] messages at time 10. *)
Definition flood (n : nat) : list (Z * Event) :=
  ([(0, Connection "b" (Some "6.6.6.6"));
    (0, CreateSession "b" (Some "Bob") (draw_const 0) "Guest")] ++
   repeat (10, SendMessage "b" hello) n)%list.

(** Five messages pass, fifty are refused: ["b"] and 6.6.6.6 are blocked. *)
Definition flooder_blocked : Server :=
  run index_security (flood 55) (setupSocketHandlers None None).

(** Six messages, the last one refused; then ["b"] disconnects, and much
    later the sweeps and the timers run. *)
Definition flooder_left : Server :=
  run index_security
      (flood 6 ++
       [(11, Disconnect "b");
        (100000000, RateLimitSweep);
        (100000000, SessionSweep);
        (100000000, TimersDue)])%list
      (setupSocketHandlers None None).

(** One violation short of the threshold. *)
Definition nearly_blocked : Limiter :=
  set_abuseCounter {[abuseKey "b" "6.6.6.6" := mkLimit 49 0]} new_limiter.

(** * Properties *)

(** ** Facts about insertion-ordered maps *)

Module JsMapFacts.
Section Facts.
Context {V : Type}.
Implicit Types (m : list (string * V)) (k : string) (v : V).

Lemma get_set_eq k v m : JsMap.get k (JsMap.set k v m) = Some v.
Proof.
  induction m as [|[k' v'] m IH]; simpl.
  - by rewrite String.eqb_refl.
  - destruct (String.eqb_spec k k'); simpl.
    + by rewrite String.eqb_refl.
    + destruct (String.eqb_spec k k'); [done | exact IH].
Qed.

Lemma get_set_ne k k' v m :
  k <> k' -> JsMap.get k (JsMap.set k' v m) = JsMap.get k m.
Proof.
  intros Hne. induction m as [|[k2 v2] m IH]; simpl.
  - destruct (String.eqb_spec k k'); [done | reflexivity].
  - destruct (String.eqb_spec k' k2) as [->|]; simpl.
    + destruct (String.eqb_spec k k2); [done | reflexivity].
    + destruct (String.eqb_spec k k2); [reflexivity | exact IH].
Qed.


Lemma get_Some_In k v m : JsMap.get k m = Some v -> In (k, v) m.
Proof.
  induction m as [|[k' v'] m IH]; simpl; [done|].
  destruct (String.eqb_spec k k') as [->|]; [|by auto].
  intros [= ->]. by left.
Qed.

Lemma get_None_keys k m : JsMap.get k m = None -> ~ In k (JsMap.keys m).
Proof.
  induction m as [|[k' v'] m IH]; simpl; [by auto|].
  destruct (String.eqb_spec k k') as [->|]; [done|].
  intros H [Heq | Hin]; [by subst | by apply IH].
Qed.

Lemma In_get k v m : JsMap.wf m -> In (k, v) m -> JsMap.get k m = Some v.
Proof.
  unfold JsMap.wf. induction m as [|[k' v'] m IH]; simpl; [done|].
  intros Hnd [Heq | Hin].
  - injection Heq as -> ->. by rewrite String.eqb_refl.
  - apply NoDup_cons in Hnd as [Hk Hnd].
    destruct (String.eqb_spec k k') as [->|]; [|by auto].
    exfalso. apply Hk. apply list_elem_of_In.
    change k' with (fst (k', v)). by apply in_map.
Qed.

Lemma delete_subset k m e : In e (JsMap.delete k m) -> In e m.
Proof.
  induction m as [|[k' v'] m IH]; simpl; [done|].
  destruct (String.eqb k k'); simpl; [by auto|].
  intros [-> | H]; [by left | right; by apply IH].
Qed.

Lemma get_delete_eq k m : JsMap.wf m -> JsMap.get k (JsMap.delete k m) = None.
Proof.
  unfold JsMap.wf. induction m as [|[k' v'] m IH]; simpl; [done|].
  intros Hnd. apply NoDup_cons in Hnd as [Hk Hnd].
  destruct (String.eqb_spec k k') as [->|Hne]; simpl.
  - destruct (JsMap.get k' m) eqn:E; [|done].
    exfalso. apply Hk. apply list_elem_of_In.
    change k' with (fst (k', v)). apply in_map. by apply get_Some_In.
  - destruct (String.eqb_spec k k'); [done | by apply IH].
Qed.

Lemma length_set k v m :
  length (JsMap.set k v m) =
  match JsMap.get k m with Some _ => length m | None => S (length m) end.
Proof.
  induction m as [|[k' v'] m IH]; simpl; [done|].
  destruct (String.eqb k k'); simpl; [done|].
  rewrite IH. by destruct (JsMap.get k m).
Qed.

Lemma length_delete k m : (length (JsMap.delete k m) <= length m)%nat.
Proof.
  induction m as [|[k' v'] m IH]; simpl; [done|].
  destruct (String.eqb k k'); simpl; lia.
Qed.

Lemma set_Forall (P : string * V -> Prop) k v m :
  Forall P m -> P (k, v) -> Forall P (JsMap.set k v m).
Proof.
  intros Hm Hv. induction Hm as [|[k' v'] m Hx Hm IH]; simpl.
  - by constructor.
  - destruct (String.eqb k k'); by constructor.
Qed.

Lemma delete_Forall (P : string * V -> Prop) k m :
  Forall P m -> Forall P (JsMap.delete k m).
Proof.
  intros Hm. induction Hm as [|[k' v'] m Hx Hm IH]; simpl; [done|].
  destruct (String.eqb k k'); [done | by constructor].
Qed.

Lemma filter_Forall (P : string * V -> Prop) f m :
  Forall P m -> Forall P (List.filter f m).
Proof.
  intros Hm. induction Hm as [|x m Hx Hm IH]; simpl; [done|].
  destruct (f x); [by constructor | done].
Qed.

Lemma get_Forall (P : string * V -> Prop) k v m :
  Forall P m -> JsMap.get k m = Some v -> P (k, v).
Proof.
  intros Hm Hg. apply get_Some_In in Hg.
  rewrite Forall_forall in Hm. apply Hm. by apply list_elem_of_In.
Qed.

Lemma keys_set_Some k v m :
  is_Some (JsMap.get k m) -> JsMap.keys (JsMap.set k v m) = JsMap.keys m.
Proof.
  induction m as [|[k' v'] m IH]; simpl; [by intros [? ?]|].
  destruct (String.eqb_spec k k') as [->|]; simpl; [done|].
  intros H. by rewrite IH.
Qed.

Lemma keys_set_None k v m :
  JsMap.get k m = None -> JsMap.keys (JsMap.set k v m) = (JsMap.keys m ++ [k])%list.
Proof.
  induction m as [|[k' v'] m IH]; simpl; [done|].
  destruct (String.eqb_spec k k') as [->|]; simpl; [done|].
  intros H. by rewrite IH.
Qed.

Lemma set_wf k v m : JsMap.wf m -> JsMap.wf (JsMap.set k v m).
Proof.
  unfold JsMap.wf. intros Hnd.
  destruct (JsMap.get k m) eqn:E.
  - by rewrite keys_set_Some.
  - rewrite keys_set_None by done. apply NoDup_app. split; [done|].
    split; [|apply NoDup_singleton].
    intros x Hx Hk. apply list_elem_of_singleton in Hk as ->.
    apply (get_None_keys _ _ E). by apply list_elem_of_In.
Qed.

Lemma delete_wf k m : JsMap.wf m -> JsMap.wf (JsMap.delete k m).
Proof.
  unfold JsMap.wf. induction m as [|[k' v'] m IH]; simpl; [done|].
  intros Hnd. apply NoDup_cons in Hnd as [Hk Hnd].
  destruct (String.eqb k k'); simpl; [done|].
  apply NoDup_cons. split; [|by apply IH].
  intros Hin. apply Hk. apply list_elem_of_In in Hin. apply list_elem_of_In.
  apply in_map_iff in Hin as [e [He Hin]]. apply in_map_iff.
  exists e. split; [done|]. by eapply delete_subset.
Qed.

Lemma filter_wf f m : JsMap.wf m -> JsMap.wf (List.filter f m).
Proof.
  unfold JsMap.wf. induction m as [|[k' v'] m IH]; simpl; [done|].
  intros Hnd. apply NoDup_cons in Hnd as [Hk Hnd].
  destruct (f (k', v')); simpl; [|by apply IH].
  apply NoDup_cons. split; [|by apply IH].
  intros Hin. apply Hk. apply list_elem_of_In in Hin. apply list_elem_of_In.
  apply in_map_iff in Hin as [e [He Hin]]. apply in_map_iff.
  exists e. split; [done|]. apply filter_In in Hin. tauto.
Qed.
End Facts.
End JsMapFacts.

(** ** Session codes are their own upper case *)

Lemma upper_ascii_idem c : upper_ascii (upper_ascii c) = upper_ascii c.
Proof. destruct c as [[] [] [] [] [] [] [] []]; reflexivity. Qed.

Lemma toUpperCase_idem s : toUpperCase (toUpperCase s) = toUpperCase s.
Proof. induction s as [|c s IH]; simpl; [done|]. by rewrite upper_ascii_idem, IH. Qed.

Lemma toUpperCase_app a b :
  toUpperCase (a ++ b) = toUpperCase a ++ toUpperCase b.
Proof. induction a as [|c a IH]; simpl; [done|]. by rewrite IH. Qed.

Lemma charAt_alphabet_upper i :
  toUpperCase (charAt i alphabet) = charAt i alphabet.
Proof. do 36 (destruct i as [|i]; [reflexivity|]). reflexivity. Qed.

Lemma generateLoop_upper draw i : forall k code,
  toUpperCase code = code ->
  toUpperCase (generateLoop draw k i code) = generateLoop draw k i code.
Proof.
  induction i as [|i IH]; intros k code Hc; simpl; [done|].
  apply IH. by rewrite toUpperCase_app, Hc, charAt_alphabet_upper.
Qed.

Lemma generateSessionCode_upper draw :
  toUpperCase (generateSessionCode draw) = generateSessionCode draw.
Proof. by apply generateLoop_upper. Qed.

(** ** The scan of [getSessionBySocketId] *)

Lemma scanSessions_Some sid l c s :
  scanSessions sid l = Some (c, s) ->
  In (c, s) l /\ JsMap.has sid (users s) = true.
Proof.
  induction l as [|[c' s'] l IH]; simpl; [done|].
  destruct (JsMap.has sid (users s')) eqn:E.
  - intros [= -> ->]. auto.
  - intros H. destruct (IH H). auto.
Qed.

Lemma scanSessions_None sid l :
  scanSessions sid l = None <->
  List.filter (fun e => JsMap.has sid (users e.2)) l = [].
Proof.
  induction l as [|[c' s'] l IH]; simpl; [done|].
  destruct (JsMap.has sid (users s')); [split; done | exact IH].
Qed.


Lemma has_set_ne {V} k k' (v : V) m :
  k <> k' -> JsMap.has k (JsMap.set k' v m) = JsMap.has k m.
Proof. intros. unfold JsMap.has. by rewrite JsMapFacts.get_set_ne. Qed.


Lemma has_delete_le {V} k k' (m : list (string * V)) :
  JsMap.has k (JsMap.delete k' m) = true -> JsMap.has k m = true.
Proof.
  unfold JsMap.has. destruct (JsMap.get k (JsMap.delete k' m)) eqn:E; [|done].
  intros _. apply JsMapFacts.get_Some_In, JsMapFacts.delete_subset in E.
  induction m as [|[k2 v2] m IH]; simpl in *; [done|].
  destruct (String.eqb_spec k k2); [done|].
  destruct E as [[= -> ->]|E]; [done | by apply IH].
Qed.

(** ** Capacity is an invariant of every manager change *)

Lemma mstep_within_capacity op m m' :
  mstep op m m' -> within_capacity m -> within_capacity m'.
Proof.
  unfold within_capacity, MAX_USERS, JsMap.size.
  intros Hs Hinv. destruct Hs; simpl; try done.
  - apply JsMapFacts.set_Forall; [done|]. simpl. lia.
  - unfold joinSession.
    destruct (JsMap.get _ (sessions m)) as [session|] eqn:E; [|done].
    unfold JsMap.size, MAX_USERS.
    destruct (_ >=? 64) eqn:Hsz; [done|].
    destruct (if truthy ip then _ else _); [done|]. simpl.
    apply JsMapFacts.set_Forall; [done|]. simpl.
    rewrite JsMapFacts.length_set. destruct (JsMap.get sid (users session)); lia.
  - unfold removeUser, getSessionBySocketId.
    destruct (scanSessions sid (sessions m)) as [[c session]|] eqn:E; [|done].
    apply scanSessions_Some in E as [Hin _].
    rewrite Forall_forall in Hinv. apply list_elem_of_In, Hinv in Hin. simpl in Hin.
    pose proof (JsMapFacts.length_delete sid (users session)).
    simpl. destruct (_ =? 0); simpl.
    + apply JsMapFacts.delete_Forall. by apply Forall_forall.
    + apply JsMapFacts.set_Forall; [by apply Forall_forall|]. simpl. lia.
  - unfold banUser.
    destruct (JsMap.get _ (sessions m)) as [session|] eqn:E; [|done].
    destruct (truthy ip); [|done]. simpl.
    apply JsMapFacts.set_Forall; [done|]. simpl.
    apply (JsMapFacts.get_Forall _ _ _ _ Hinv E).
  - unfold unbanUser.
    destruct (JsMap.get _ (sessions m)) as [session|] eqn:E; [|done]. simpl.
    apply JsMapFacts.set_Forall; [done|]. simpl.
    apply (JsMapFacts.get_Forall _ _ _ _ Hinv E).
  - unfold storePublicKey.
    destruct (JsMap.get _ (sessions m)) as [session|] eqn:E; [|done]. simpl.
    apply JsMapFacts.set_Forall; [done|]. simpl.
    apply (JsMapFacts.get_Forall _ _ _ _ Hinv E).
  - unfold updateActivity.
    destruct (JsMap.get _ (sessions m)) as [session|] eqn:E; [|done]. simpl.
    apply JsMapFacts.set_Forall; [done|]. simpl.
    apply (JsMapFacts.get_Forall _ _ _ _ Hinv E).
  - by apply JsMapFacts.filter_Forall.
  - apply JsMapFacts.set_Forall; [done|]. simpl.
    pose proof (JsMapFacts.get_Forall _ _ _ _ Hinv H) as Hs. simpl in Hs.
    pose proof (JsMapFacts.length_delete target (users session)). lia.
Qed.

(** ** The registry stays a map with upper-case keys *)

Lemma registry_wf_set k v m :
  registry_wf m -> session_wf (k, v) ->
  registry_wf (mkManager (JsMap.set k v (sessions m))).
Proof.
  intros [Hnd Hup] Hk. split; simpl.
  - by apply JsMapFacts.set_wf.
  - by apply JsMapFacts.set_Forall.
Qed.

Lemma registry_wf_get k v m :
  registry_wf m -> JsMap.get k (sessions m) = Some v -> session_wf (k, v).
Proof. intros [_ Hall] Hg. by apply (JsMapFacts.get_Forall _ _ _ _ Hall Hg). Qed.

Lemma wf_nil {V} : JsMap.wf (@nil (string * V)).
Proof. apply NoDup_nil_2. Qed.

Lemma mstep_registry_wf op m m' :
  mstep op m m' -> registry_wf m -> registry_wf m'.
Proof.
  intros Hs Hinv. destruct Hs; simpl; try done.
  - apply registry_wf_set; [done|]. split; [apply generateSessionCode_upper|].
    split; [|apply wf_nil]. unfold JsMap.wf. simpl. apply NoDup_singleton.
  - unfold joinSession.
    destruct (JsMap.get _ (sessions m)) as [session|] eqn:E; [|done].
    destruct (_ >=? _); [done|].
    destruct (if truthy ip then _ else _); [done|]. simpl.
    destruct (registry_wf_get _ _ _ Hinv E) as (_ & Hu & Hb).
    apply registry_wf_set; [done|].
    split; [apply toUpperCase_idem|]. simpl. split; [by apply JsMapFacts.set_wf | done].
  - unfold removeUser, getSessionBySocketId.
    destruct (scanSessions sid (sessions m)) as [[c session]|] eqn:E; [|done].
    apply scanSessions_Some in E as [Hin _].
    destruct Hinv as [Hnd Hall]. simpl. destruct (_ =? 0); simpl.
    + split; simpl; [by apply JsMapFacts.delete_wf | by apply JsMapFacts.delete_Forall].
    + rewrite Forall_forall in Hall.
      pose proof Hin as Hin'. apply list_elem_of_In, Hall in Hin' as (Hc & Hu & Hb).
      apply registry_wf_set; [by split; [|apply Forall_forall]|].
      split; [done|]. simpl. split; [by apply JsMapFacts.delete_wf | done].
  - unfold banUser.
    destruct (JsMap.get _ (sessions m)) as [session|] eqn:E; [|done].
    destruct (truthy ip); [|done]. simpl.
    destruct (registry_wf_get _ _ _ Hinv E) as (_ & Hu & Hb).
    apply registry_wf_set; [done|].
    split; [apply toUpperCase_idem|]. simpl. split; [done | by apply JsMapFacts.set_wf].
  - unfold unbanUser.
    destruct (JsMap.get _ (sessions m)) as [session|] eqn:E; [|done]. simpl.
    destruct (registry_wf_get _ _ _ Hinv E) as (_ & Hu & Hb).
    apply registry_wf_set; [done|].
    split; [apply toUpperCase_idem|]. simpl. split; [done | by apply JsMapFacts.delete_wf].
  - unfold storePublicKey.
    destruct (JsMap.get _ (sessions m)) as [session|] eqn:E; [|done]. simpl.
    destruct (registry_wf_get _ _ _ Hinv E) as (_ & Hu & Hb).
    apply registry_wf_set; [done|]. split; [apply toUpperCase_idem | done].
  - unfold updateActivity.
    destruct (JsMap.get _ (sessions m)) as [session|] eqn:E; [|done]. simpl.
    destruct (registry_wf_get _ _ _ Hinv E) as (_ & Hu & Hb).
    apply registry_wf_set; [done|]. split; [apply toUpperCase_idem | done].
  - destruct Hinv as [Hnd Hup].
    split; simpl; [by apply JsMapFacts.filter_wf | by apply JsMapFacts.filter_Forall].
  - destruct (registry_wf_get _ _ _ Hinv H) as (_ & Hu & Hb).
    apply registry_wf_set; [done|].
    split; [apply toUpperCase_idem|]. simpl. split; [by apply JsMapFacts.delete_wf | done].
Qed.

(** ** Every event acts on the registry through [mstep] *)

Lemma banUser_getSession now code ip nick m session :
  getSession code m = Some session ->
  exists session',
    getSession code (banUser now code ip nick m).2 = Some session' /\
    adminId session' = adminId session /\ users session' = users session.
Proof.
  unfold getSession, banUser. intros E. rewrite E.
  destruct (truthy ip); simpl.
  - rewrite JsMapFacts.get_set_eq. eauto.
  - rewrite E. eauto.
Qed.

Lemma step_mstep sec now ev s :
  exists m1, mstep (op_of ev) (manager s) m1 /\
             mstep OpOther m1 (manager (step sec now ev s).1).
Proof.
  assert (Hid : forall op, exists m1, mstep op (manager s) m1 /\
                                       mstep OpOther m1 (manager s))
    by (intros op; exists (manager s); split; apply ms_id).
  destruct ev; unfold step, handle; simpl op_of;
    try (destruct (connected s !! sid) as [address|]; [|by apply Hid]).
  - unfold on_connection. destruct (connected s !! sid); [by apply Hid|].
    destruct (isBlocked _ _ _); by apply Hid.
  - unfold on_create_session. destruct (isBlocked _ _ _); [by apply Hid|].
    destruct (_ >=? _); [by apply Hid|].
    destruct (createSession _ _ _ _ _ _) as [[[c n] sess] m'] eqn:E. simpl.
    exists m'. split; [|apply ms_id].
    change m' with ((c, n, sess), m').2. rewrite <- E. apply ms_create.
  - unfold on_join_session. destruct (isBlocked _ _ _); [by apply Hid|].
    destruct (negb (truthy _)); [by apply Hid|].
    destruct (negb (isValidSessionCode _ _)); [by apply Hid|].
    destruct (joinSession _ _ _ _ _ _ _) as [r m'] eqn:E.
    exists m'. split.
    + change m' with (r, m').2. rewrite <- E. apply ms_join.
    + destruct r; apply ms_id.
  - unfold on_share_public_key. destruct (_ || _); [by apply Hid|].
    destruct (storePublicKey _ _ _ _) as [b m'] eqn:E. simpl.
    exists (manager s). split; [apply ms_id|].
    change m' with (b, m').2. rewrite <- E. apply ms_key.
  - unfold on_get_public_keys. destruct code0; by apply Hid.
  - unfold on_send_message. destruct (isBlocked _ _ _); [by apply Hid|].
    destruct (negb (truthy _)); [by apply Hid|].
    destruct (negb (isValidSessionCode _ _)); [by apply Hid|].
    destruct (checkRateLimit _ _ _ _) as [ok l]. simpl.
    destruct (negb ok); [by apply Hid|].
    destruct (_ >? _); [by apply Hid|].
    destruct (_ || _); [by apply Hid|].
    destruct (_ || _); [by apply Hid|].
    destruct (getSessionBySocketId _ _) as [[scode session]|]; [|by apply Hid].
    destruct (negb _); [by apply Hid|].
    destruct (JsMap.get _ _); [|by apply Hid]. simpl.
    exists (manager s). split; [apply ms_id | apply ms_activity].
  - unfold on_typing. destruct (negb _); [by apply Hid|].
    destruct (getSessionBySocketId _ _) as [[scode session]|]; [|by apply Hid].
    destruct (JsMap.get _ _); by apply Hid.
  - unfold on_message_status. destruct (_ || _); by apply Hid.
  - unfold on_message_status. destruct (_ || _); by apply Hid.
  - unfold on_kick_user. destruct (_ || _); [by apply Hid|].
    destruct (getSession _ _) as [session|] eqn:E; [|by apply Hid].
    destruct (String.eqb_spec (adminId session) sid) as [Hadm|]; [|by apply Hid].
    simpl. destruct (String.eqb_spec (default "" targetUserId) sid) as [|Hne];
      [by apply Hid|].
    destruct (JsMap.get _ (users session)); [|by apply Hid]. simpl.
    destruct (connected s !! default "" targetUserId) as [targetIP|].
    + destruct (truthy targetIP).
      * destruct (banUser_getSession now (default "" code0) targetIP (nickname u)
                    _ _ E) as (session' & E' & Hadm' & _).
        eexists. split; [apply ms_ban|]. rewrite E'. simpl.
        apply ms_kick; [done | congruence].
      * exists (manager s). split; [apply ms_id|]. rewrite E. simpl.
        apply ms_kick; [done | congruence].
    + exists (manager s). split; [apply ms_id|]. rewrite E. simpl.
      apply ms_kick; [done | congruence].
  - unfold on_unban_user. destruct (_ || _); [by apply Hid|].
    destruct (getSession _ _) as [session|]; [|by apply Hid].
    destruct (negb _); [by apply Hid|].
    destruct (unbanUser _ _ _) as [b m'] eqn:E.
    exists m'. split; [|destruct b; apply ms_id].
    change m' with (b, m').2. rewrite <- E. apply ms_unban.
  - unfold on_get_banned_users. destruct (negb _); [by apply Hid|].
    destruct (getSession _ _) as [session|]; [|by apply Hid].
    destruct (negb _); by apply Hid.
  - unfold on_mute_user. destruct (_ || _); [by apply Hid|].
    destruct (getSession _ _) as [session|]; [|by apply Hid].
    destruct (negb _); [by apply Hid|].
    destruct (JsMap.get _ _); by apply Hid.
  - unfold on_disconnect.
    destruct (removeUser _ _ _) as [r m'] eqn:E. simpl.
    exists m'. split; [|apply ms_id].
    change m' with (r, m').2. rewrite <- E. apply ms_remove.
  - unfold on_get_session_info. destruct (negb _); [by apply Hid|].
    destruct (getSession _ _); by apply Hid.
  - unfold on_leave_session.
    destruct (removeUser _ _ _) as [r m'] eqn:E. simpl.
    exists m'. split; [|apply ms_id].
    change m' with (r, m').2. rewrite <- E. apply ms_remove.
  - by apply Hid.
  - by apply Hid.
  - exists (manager s). split; [apply ms_id | apply ms_cleanup].
Qed.

(** ** Invariants along a run *)

Lemma run_manager_invariant sec (I : SessionManager -> Prop) :
  (forall op m m', mstep op m m' -> I m -> I m') ->
  forall trace s, I (manager s) -> I (manager (run sec trace s)).
Proof.
  intros Hstep trace. induction trace as [|[now ev] trace IH]; intros s Hs; [done|].
  simpl. apply IH.
  destruct (step_mstep sec now ev s) as (m1 & H1 & H2). eauto.
Qed.

Lemma reachable_within_capacity sec s :
  reachable sec s -> within_capacity (manager s).
Proof.
  intros (w & n & trace & ->).
  apply run_manager_invariant; [apply mstep_within_capacity|]. constructor.
Qed.

Lemma reachable_registry_wf sec s :
  reachable sec s -> registry_wf (manager s).
Proof.
  intros (w & n & trace & ->).
  apply run_manager_invariant; [apply mstep_registry_wf|].
  split; [apply wf_nil | constructor].
Qed.

(** ** C9: capacity *)

(** C9. In every reachable state every live session has between 0 and 64
    members, and [joinSession] answers "session is full", leaving the
    registry as it is, whenever the session found already has 64 members or
    more. *)
Theorem session_capacity_invariant sec s :
  reachable sec s ->
  (forall code session,
      In (code, session) (sessions (manager s)) ->
      0 <= JsMap.size (users session) <= 64) /\
  (forall now gen code sid nick ip session,
      getSession code (manager s) = Some session ->
      JsMap.size (users session) >= 64 ->
      joinSession now gen code sid nick ip (manager s) = (JoinFull, manager s)).
Proof.
  intros Hr. split.
  - intros code session Hin.
    pose proof (reachable_within_capacity _ _ Hr) as Hcap.
    unfold within_capacity in Hcap. rewrite Forall_forall in Hcap.
    by apply list_elem_of_In, Hcap in Hin.
  - intros now gen code sid nick ip session Hg Hsz.
    unfold getSession in Hg. unfold joinSession. rewrite Hg.
    unfold MAX_USERS. destruct (Z.geb_spec (JsMap.size (users session)) 64); [done | lia].
Qed.

Lemma run_reachable sec trace window max :
  reachable sec (run sec trace (setupSocketHandlers window max)).
Proof. by exists window, max, trace. Qed.

Lemma full_house_reachable : reachable index_security full_house.
Proof. unfold full_house. apply run_reachable. Qed.


Lemma two_members_reachable : reachable index_security two_members.
Proof. unfold two_members. apply run_reachable. Qed.

Lemma session_capacity_invariant_witness :
  0 <= JsMap.size (users two_members_session) <= 64 /\
  joinSession 7 "Guest" "aaaaaaaa" "late" None (Some "10.9.9.9") (manager full_house)
  = (JoinFull, manager full_house).
Proof.
  split.
  - apply (proj1 (session_capacity_invariant index_security two_members
                    two_members_reachable)) with "AAAAAAAA".
    vm_compute. by left.
  - assert (E : exists session,
               getSession "aaaaaaaa" (manager full_house) = Some session /\
               JsMap.size (users session) >= 64).
    { vm_compute. eexists. split; [reflexivity | by vm_compute]. }
    destruct E as (session & E & Hsz).
    exact (proj2 (session_capacity_invariant index_security full_house
                    full_house_reachable)
             7 "Guest" "aaaaaaaa" "late" None (Some "10.9.9.9") session E Hsz).
Defined.

(** ** C7: removing a member *)

Lemma length_delete_has {V} k (m : list (string * V)) :
  JsMap.has k m = true -> S (length (JsMap.delete k m)) = length m.
Proof.
  unfold JsMap.has. induction m as [|[k' v'] m IH]; simpl; [done|].
  destruct (String.eqb k k'); simpl; [done|]. intros H. by rewrite IH.
Qed.

Lemma has_delete_eq {V} k (m : list (string * V)) :
  JsMap.wf m -> JsMap.has k (JsMap.delete k m) = false.
Proof. intros H. unfold JsMap.has. by rewrite JsMapFacts.get_delete_eq. Qed.

(** C7. In a reachable state, for a connection [sid] that
    [getSessionBySocketId] finds in session [code]: [removeUser] takes [sid]
    out of that session's members. If no member is left the session is
    deleted from the registry at once, the result carries
    [sessionDestroyed = true], and [getSession code] finds nothing
    afterwards; otherwise the session stays with [lastActivity] set to the
    current time, and the result carries [sessionDestroyed = false] and the
    number of members that remain. *)
Theorem removeUser_removes_member sec s now sid code session :
  reachable sec s ->
  getSessionBySocketId sid (manager s) = Some (code, session) ->
  let remaining := JsMap.delete sid (users session) in
  let '(result, m') := removeUser now sid (manager s) in
  JsMap.has sid (users session) = true /\
  JsMap.has sid remaining = false /\
  JsMap.size remaining = JsMap.size (users session) - 1 /\
  if JsMap.size remaining =? 0 then
    result = Some (mkRemoveResult code (JsMap.get sid (users session)) true None) /\
    getSession code m' = None
  else
    result = Some (mkRemoveResult code (JsMap.get sid (users session)) false
                                  (Some (JsMap.size remaining))) /\
    getSession code m' =
      Some (set_lastActivity now
              (set_publicKeys (JsMap.delete sid (publicKeys session))
                 (set_users remaining session))).
Proof.
  intros Hr Hfind remaining. pose proof (reachable_registry_wf _ _ Hr) as [Hnd Hall].
  unfold removeUser. rewrite Hfind. simpl. fold remaining.
  apply scanSessions_Some in Hfind as [Hin Hhas].
  rewrite Forall_forall in Hall.
  pose proof Hin as Hwf. apply list_elem_of_In, Hall in Hwf as (Hup & Hu & _).
  simpl in Hup, Hu.
  assert (Hsz : JsMap.size remaining = JsMap.size (users session) - 1).
  { unfold JsMap.size, remaining. rewrite <- (length_delete_has _ _ Hhas). lia. }
  unfold getSession. rewrite Hup.
  destruct (JsMap.size remaining =? 0).
  - repeat split; try done; [by apply has_delete_eq|].
    by apply JsMapFacts.get_delete_eq.
  - repeat split; try done; [by apply has_delete_eq|].
    simpl. by rewrite JsMapFacts.get_set_eq.
Qed.

Lemma removeUser_removes_member_witness :
  (removeUser 9 "0" (manager two_members)).1
  = Some (mkRemoveResult "AAAAAAAA"
            (Some (mkUser "0" "Guest" 0 false (Some "10.0.0.0"))) false (Some 1)) /\
  getSession "AAAAAAAA" (removeUser 9 "0" (manager two_members)).2
  = Some (mkSession "AAAAAAAA" 0 9 "admin"
            [("admin", mkUser "admin" "Admin" 0 true None)] [] []).
Proof.
  pose proof (removeUser_removes_member index_security two_members 9 "0"
                "AAAAAAAA" two_members_session two_members_reachable eq_refl) as H.
  vm_compute in H. destruct H as (_ & _ & _ & H1 & H2).
  vm_compute. by split.
Defined.

(** ** Invariants that need well-behaved events *)

Lemma guarded_run_invariant sec (I : Server -> Prop) (G : Event -> Server -> Prop) :
  (forall now ev s, I s -> G ev s -> I (step sec now ev s).1) ->
  forall trace s, I s -> guarded sec G trace s -> I (run sec trace s).
Proof.
  intros Hstep trace. induction trace as [|[now ev] trace IH]; intros s Hs Hg; [done|].
  simpl in *. destruct Hg as [Hg Hrest]. apply IH; [by apply Hstep | done].
Qed.

(** ** C2: the admin and the members *)






(** ** C3: one session per connection *)

Section CountMembers.
Variable P : string * Session -> bool.
Hypothesis P_value : forall k k' v, P (k, v) = P (k', v).

Lemma count_set_le k v (l : list (string * Session)) :
  (length (List.filter P (JsMap.set k v l))
   <= length (List.filter P l) + (if P (k, v) then 1 else 0))%nat.
Proof.
  induction l as [|[k' v'] l IH]; simpl.
  - destruct (P (k, v)); simpl; lia.
  - destruct (String.eqb k k'); simpl.
    + destruct (P (k, v)), (P (k', v')); simpl; lia.
    + destruct (P (k', v')); simpl; lia.
Qed.

Lemma count_set_same k v old (l : list (string * Session)) :
  JsMap.get k l = Some old ->
  (P (k, v) = true -> P (k, old) = true) ->
  (length (List.filter P (JsMap.set k v l)) <= length (List.filter P l))%nat.
Proof.
  intros Hg Himp. induction l as [|[k' v'] l IH]; simpl in *; [done|].
  destruct (String.eqb_spec k k') as [->|Hne]; simpl.
  - injection Hg as ->.
    destruct (P (k', v)) eqn:E1; [rewrite Himp by done; simpl; lia|].
    destruct (P (k', old)); simpl; lia.
  - specialize (IH Hg). destruct (P (k', v')); simpl; lia.
Qed.

Lemma count_delete_le k (l : list (string * Session)) :
  (length (List.filter P (JsMap.delete k l)) <= length (List.filter P l))%nat.
Proof.
  induction l as [|[k' v'] l IH]; simpl; [done|].
  destruct (String.eqb k k'); simpl.
  - destruct (P (k', v')); simpl; lia.
  - destruct (P (k', v')); simpl; lia.
Qed.

Lemma count_filter_le f (l : list (string * Session)) :
  (length (List.filter P (List.filter f l)) <= length (List.filter P l))%nat.
Proof.
  induction l as [|x l IH]; simpl; [done|].
  destruct (f x); simpl; destruct (P x); simpl; lia.
Qed.
End CountMembers.

Lemma mstep_single_membership op m m' :
  mstep op m m' ->
  (forall sid c, op = OpCreate sid c \/ op = OpJoin sid ->
                 getSessionBySocketId sid m = None) ->
  registry_wf m ->
  single_membership m -> single_membership m'.
Proof.
  unfold single_membership, memberships.
  intros Hs Hg Hwf Hinv x. specialize (Hinv x).
  set (P := fun e : string * Session => JsMap.has x (users e.2)) in *.
  assert (HP : forall k k' v, P (k, v) = P (k', v)) by done.
  assert (Hupd : forall k old new,
             JsMap.get k (sessions m) = Some old ->
             (JsMap.has x (users new) = true -> JsMap.has x (users old) = true) ->
             (length (List.filter P (JsMap.set k new (sessions m))) <= 1)%nat).
  { intros k old new Hget Himp.
    pose proof (count_set_same P k new old (sessions m) Hget Himp). lia. }
  destruct Hs; simpl; try done.
  - specialize (Hg sid (generateSessionCode draw) (or_introl eq_refl)).
    match goal with
    | |- context [JsMap.set ?k ?v (sessions m)] =>
        pose proof (count_set_le P k v (sessions m)) as Hle
    end.
    destruct (String.eqb_spec x sid) as [->|Hne].
    + apply scanSessions_None in Hg. fold P in Hg. rewrite Hg in Hle.
      simpl in Hle. destruct (P _); simpl in *; lia.
    + replace (P _) with false in Hle; [simpl in *; lia|].
      unfold P, JsMap.has. simpl. by destruct (String.eqb_spec x sid).
  - specialize (Hg sid "" (or_intror eq_refl)).
    unfold joinSession.
    destruct (JsMap.get _ (sessions m)) as [session|] eqn:E; [|done].
    destruct (_ >=? _); [done|].
    destruct (if truthy ip then _ else _); [done|]. simpl.
    destruct (String.eqb_spec x sid) as [->|Hne].
    + apply scanSessions_None in Hg. fold P in Hg.
      match goal with
      | |- context [JsMap.set ?k ?v (sessions m)] =>
          pose proof (count_set_le P k v (sessions m)) as Hle
      end.
      rewrite Hg in Hle. simpl in Hle. destruct (P _); simpl in *; lia.
    + apply (Hupd _ session); [done|]. simpl. by rewrite has_set_ne.
  - unfold removeUser, getSessionBySocketId.
    destruct (scanSessions sid (sessions m)) as [[c session]|] eqn:E; [|done].
    apply scanSessions_Some in E as [Hin _].
    destruct Hwf as [Hnd _]. apply (JsMapFacts.In_get _ _ _ Hnd) in Hin.
    simpl. destruct (_ =? 0); simpl.
    + pose proof (count_delete_le P c (sessions m)). lia.
    + apply (Hupd _ session); [done|]. simpl. apply has_delete_le.
  - unfold banUser.
    destruct (JsMap.get _ (sessions m)) as [session|] eqn:E; [|done].
    destruct (truthy ip); [|done]. simpl. by apply (Hupd _ session).
  - unfold unbanUser.
    destruct (JsMap.get _ (sessions m)) as [session|] eqn:E; [|done]. simpl.
    by apply (Hupd _ session).
  - unfold storePublicKey.
    destruct (JsMap.get _ (sessions m)) as [session|] eqn:E; [|done]. simpl.
    by apply (Hupd _ session).
  - unfold updateActivity.
    destruct (JsMap.get _ (sessions m)) as [session|] eqn:E; [|done]. simpl.
    by apply (Hupd _ session).
  - pose proof (count_filter_le P
      (fun e => negb (now - lastActivity e.2 >? SESSION_EXPIRY)) (sessions m)). lia.
  - apply (Hupd _ session); [done|]. simpl. apply has_delete_le.
Qed.

Lemma step_single_membership sec now ev s :
  registry_wf (manager s) /\ single_membership (manager s) ->
  from_unauthenticated ev s ->
  registry_wf (manager (step sec now ev s).1) /\
  single_membership (manager (step sec now ev s).1).
Proof.
  intros [Hwf Hinv] Hg. destruct (step_mstep sec now ev s) as (m1 & H1 & H2).
  pose proof (mstep_registry_wf _ _ _ H1 Hwf) as Hwf1.
  split; [by apply (mstep_registry_wf _ _ _ H2)|].
  apply (mstep_single_membership _ _ _ H2); [by intros ? ? [|]| done |].
  apply (mstep_single_membership _ _ _ H1); [|done|done].
  intros sid c Hop. destruct ev; simpl in Hop; destruct Hop as [Hop|Hop];
    try done; by injection Hop as ->.
Qed.

(** C3, as the code has it. [join-session] and [create-session] never
    detach the caller from a session it is already in. In every state
    reached by a run in which these two events only come from connections
    that are members of no session, each connection id is a member of at
    most one live session. *)
Theorem single_membership_from_unauthenticated sec window max trace :
  guarded sec from_unauthenticated trace (setupSocketHandlers window max) ->
  forall sid,
    (length (memberships sid
               (manager (run sec trace (setupSocketHandlers window max)))) <= 1)%nat.
Proof.
  intros Hg.
  apply (guarded_run_invariant sec
           (fun s => registry_wf (manager s) /\ single_membership (manager s))
           from_unauthenticated); [| |done].
  - intros now ev s. apply step_single_membership.
  - split; [split; [apply wf_nil | constructor]|]. intros sid. simpl. lia.
Qed.

Lemma single_membership_from_unauthenticated_witness :
  (length (memberships "0" (manager two_members)) <= 1)%nat.
Proof.
  apply (single_membership_from_unauthenticated index_security None None
           (opened ++ joins "AAAAAAAA" [0%nat])%list).
  vm_compute. tauto.
Defined.

(** C3 as stated fails: a member of BBBBBBBB that joins AAAAAAAA is not
    detached from BBBBBBBB and ends up a member of both. *)
Lemma joined_twice_member_of_both :
  map fst (memberships "b"
             (manager (run index_security double_join
                           (setupSocketHandlers None None))))
  = ["AAAAAAAA"; "BBBBBBBB"].
Proof. vm_compute. reflexivity. Qed.

(** ** C1: session codes *)

Lemma createSession_code now draw gen sid nick m :
  (createSession now draw gen sid nick m).1.1.1 = generateSessionCode draw.
Proof. reflexivity. Qed.

(** C1. [createSession] accepts the code it draws without looking at the
    registry. Here the draw repeats the code of the live session AAAAAAAA
    (members ["admin"] and ["0"]): the code is accepted, the live session is
    replaced by the new one, and its two members are in no session any
    more. *)
Theorem createSession_reuses_live_code :
  let '((code, _, _), m') :=
    createSession 3 (draw_const 0) "Carol" "c" None (manager two_members) in
  code = "AAAAAAAA" /\
  JsMap.keys <$> (users <$> getSession code (manager two_members))
    = Some ["admin"; "0"] /\
  JsMap.keys <$> (users <$> getSession code m') = Some ["c"] /\
  getSessionBySocketId "admin" m' = None /\
  getSessionBySocketId "0" m' = None.
Proof. vm_compute. repeat split. Qed.

(** ** C8: the answer to a banned address *)

Lemma with_manager_same s : with_manager (manager s) s = s.
Proof. by destruct s. Qed.

(** C8, as the code has it. When [join-session] is refused because the
    caller's address is in the session's ban table, the acknowledgement is
    the [joinSession] result passed on as it is, and it carries, as
    [bannedNickname], the nickname recorded in the ban record. *)
Theorem banned_join_response sec now sid clientIP code nick gen s session info :
  isBlocked sid clientIP (limiter s) = false ->
  truthy code = true ->
  isValidSessionCode sec (toUpperCase (sanitizeInput sec (default "" code) 10))
    = true ->
  getSession (toUpperCase (sanitizeInput sec (default "" code) 10)) (manager s)
    = Some session ->
  JsMap.size (users session) < MAX_USERS ->
  clientIP <> "" ->
  JsMap.get clientIP (bannedUsers session) = Some info ->
  on_join_session sec now sid clientIP code nick gen s
  = (s, [Callback sid (RJoinRejected (JoinBanned (banNickname info)))]).
Proof.
  intros Hb Hc Hv Hg Hsz Hip Hban. unfold on_join_session.
  rewrite Hb, Hc, Hv. simpl. unfold joinSession. unfold getSession in Hg.
  rewrite Hg. destruct (Z.geb_spec (JsMap.size (users session)) MAX_USERS); [lia|].
  destruct clientIP as [|a r]; [done|]. simpl in *. rewrite Hban.
  by rewrite with_manager_same.
Qed.

Lemma banned_join_response_witness :
  on_join_session index_security 5 "x" "10.0.0.0" (Some "aaaaaaaa") (Some "Eve")
                  "Guest" guest_banned
  = (guest_banned, [Callback "x" (RJoinRejected (JoinBanned "Guest"))]).
Proof.
  apply (banned_join_response index_security 5 "x" "10.0.0.0" (Some "aaaaaaaa")
           (Some "Eve") "Guest" guest_banned
           (mkSession "AAAAAAAA" 0 0 "admin"
              [("admin", mkUser "admin" "Admin" 0 true None)] []
              [("10.0.0.0", mkBanInfo "Guest" 3 "Kicked by admin")])
           (mkBanInfo "Guest" 3 "Kicked by admin"));
    try (by vm_compute).
Defined.

(** C8 as stated fails: the client refused for a banned address is sent
    the nickname of the member that was banned. *)
Lemma banned_join_echoes_nickname :
  (step index_security 5 (JoinSession "x" (Some "aaaaaaaa") (Some "Eve") "Guest")
        guest_banned).2
  = [Callback "x" (RJoinRejected (JoinBanned "Guest"))].
Proof. vm_compute. reflexivity. Qed.

(** ** C4: bans *)


Lemma get_filter {V} k f (m : list (string * V)) :
  JsMap.wf m ->
  JsMap.get k (List.filter f m) =
  match JsMap.get k m with
  | Some v => if f (k, v) then Some v else None
  | None => None
  end.
Proof.
  unfold JsMap.wf. induction m as [|[k' v'] m IH]; simpl; [done|].
  intros Hnd. apply NoDup_cons in Hnd as [Hk Hnd]. specialize (IH Hnd).
  destruct (String.eqb_spec k k') as [->|Hne].
  - destruct (f (k', v')) eqn:Ef; simpl; [by rewrite String.eqb_refl|].
    rewrite IH. destruct (JsMap.get k' m) eqn:E; [|done].
    exfalso. apply Hk. apply list_elem_of_In.
    change k' with (fst (k', v)). apply in_map. by apply JsMapFacts.get_Some_In.
  - destruct (f (k', v')); simpl; [|done].
    by destruct (String.eqb_spec k k').
Qed.









(** ** C5: the rate-limit window *)

Lemma trackAbuse_rates now sid ip l :
  messageRateLimiter (trackAbuse now sid ip l) = messageRateLimiter l /\
  socketRateLimiters (trackAbuse now sid ip l) = socketRateLimiters l /\
  same_config l (trackAbuse now sid ip l).
Proof.
  unfold trackAbuse, same_config.
  destruct (abuseCounter l !! abuseKey sid ip) as [abuse|]; [|done].
  destruct (_ >? _); [done|]. simpl. by destruct (_ >=? _).
Qed.

Lemma checkRateLimit_first now sid ip l :
  messageRateLimiter l !! sid = None ->
  socketRateLimiters l !! ip = None ->
  exists l', checkRateLimit now sid ip l = (true, l') /\
             window_state l' sid ip now 1 /\ same_config l l'.
Proof.
  intros Hm Hi. unfold checkRateLimit. rewrite Hm. simpl. rewrite Hi.
  eexists. split; [reflexivity|]. unfold window_state, same_config. simpl.
  by rewrite !lookup_insert_eq.
Qed.

Lemma checkRateLimit_within now sid ip l t0 k :
  window_state l sid ip t0 k ->
  1 <= k < RATE_LIMIT_MAX l ->
  now - t0 <= RATE_LIMIT_WINDOW l ->
  exists l', checkRateLimit now sid ip l = (true, l') /\
             window_state l' sid ip t0 (k + 1) /\ same_config l l'.
Proof.
  intros [Hm Hi] Hk Hw. unfold checkRateLimit. rewrite Hm. simpl.
  destruct (Z.gtb_spec (now - t0) (RATE_LIMIT_WINDOW l)); [lia|].
  destruct (Z.geb_spec k (RATE_LIMIT_MAX l)); [lia|]. simpl. rewrite Hi. simpl.
  destruct (Z.gtb_spec (now - t0) (RATE_LIMIT_WINDOW l)); [lia|].
  destruct (Z.geb_spec k (RATE_LIMIT_MAX l * 3)); [lia|].
  eexists. split; [reflexivity|]. unfold window_state, same_config. simpl.
  by rewrite !lookup_insert_eq.
Qed.

Lemma checkRateLimit_over now sid ip l t0 :
  window_state l sid ip t0 (RATE_LIMIT_MAX l) ->
  now - t0 <= RATE_LIMIT_WINDOW l ->
  checkRateLimit now sid ip l = (false, trackAbuse now sid ip l).
Proof.
  intros [Hm Hi] Hw. unfold checkRateLimit. rewrite Hm. simpl.
  destruct (Z.gtb_spec (now - t0) (RATE_LIMIT_WINDOW l)); [lia|].
  destruct (Z.geb_spec (RATE_LIMIT_MAX l) (RATE_LIMIT_MAX l)); [done | lia].
Qed.

Lemma checkRateLimit_reset now sid ip l t0 k :
  window_state l sid ip t0 k ->
  now - t0 > RATE_LIMIT_WINDOW l ->
  exists l', checkRateLimit now sid ip l = (true, l') /\
             window_state l' sid ip now 1 /\ same_config l l'.
Proof.
  intros [Hm Hi] Hw. unfold checkRateLimit. rewrite Hm. simpl.
  destruct (Z.gtb_spec (now - t0) (RATE_LIMIT_WINDOW l)); [|lia]. simpl.
  rewrite Hi. simpl.
  destruct (Z.gtb_spec (now - t0) (RATE_LIMIT_WINDOW l)); [|lia].
  eexists. split; [reflexivity|]. unfold window_state, same_config. simpl.
  by rewrite !lookup_insert_eq.
Qed.

Lemma checkAll_within sid ip t0 ts : forall l k,
  window_state l sid ip t0 k ->
  1 <= k ->
  k + Z.of_nat (length ts) <= RATE_LIMIT_MAX l ->
  Forall (fun u => u - t0 <= RATE_LIMIT_WINDOW l) ts ->
  exists l', checkAll sid ip ts l = (repeat true (length ts), l') /\
             window_state l' sid ip t0 (k + Z.of_nat (length ts)) /\
             same_config l l'.
Proof.
  induction ts as [|u ts IH]; intros l k Hst Hk Hlen Hall.
  - exists l. simpl. rewrite Z.add_0_r. by split.
  - apply Forall_cons in Hall as [Hu Hall]. simpl length in *.
    destruct (checkRateLimit_within u sid ip l t0 k Hst) as (l1 & E1 & Hst1 & Hw1 & Hn1);
      [lia | done |].
    destruct (IH l1 (k + 1)) as (l2 & E2 & Hst2 & Hw2 & Hn2);
      [done | lia | rewrite Hn1; lia | by rewrite Hw1 |].
    exists l2. simpl. rewrite E1, E2.
    split; [done|]. split.
    + by replace (k + Z.of_nat (S (length ts))) with (k + 1 + Z.of_nat (length ts)) by lia.
    + split; congruence.
Qed.

(** C5, as the code has it. Starting with no entry for the connection and
    none for its address, with limit [N >= 1] and window [W]: the first [N]
    events, all read no later than [W] ms after the first, pass; one more
    event read no later than [W] ms after the first is refused; an event
    read more than [W] ms after the first passes and restarts the counter at
    one. *)
Theorem rate_limit_window l sid ip t0 ts t t' :
  1 <= RATE_LIMIT_MAX l ->
  messageRateLimiter l !! sid = None ->
  socketRateLimiters l !! ip = None ->
  Z.of_nat (length (t0 :: ts)) = RATE_LIMIT_MAX l ->
  Forall (fun u => u - t0 <= RATE_LIMIT_WINDOW l) ts ->
  t - t0 <= RATE_LIMIT_WINDOW l ->
  t' - t0 > RATE_LIMIT_WINDOW l ->
  let '(oks, l1) := checkAll sid ip (t0 :: ts) l in
  let '(ok, l2) := checkRateLimit t sid ip l1 in
  let '(ok', l3) := checkRateLimit t' sid ip l2 in
  oks = repeat true (length (t0 :: ts)) /\
  ok = false /\
  ok' = true /\
  messageRateLimiter l3 !! sid = Some (mkLimit 1 t').
Proof.
  intros HN Hm Hi Hlen Hall Ht Ht'. simpl length in Hlen. simpl checkAll.
  destruct (checkRateLimit_first t0 sid ip l Hm Hi) as (l0 & E0 & Hst0 & Hw0 & Hn0).
  rewrite E0.
  destruct (checkAll_within sid ip t0 ts l0 1 Hst0) as (l1 & E1 & Hst1 & Hw1 & Hn1);
    [lia | rewrite Hn0; lia | by rewrite Hw0 |].
  rewrite E1.
  replace (1 + Z.of_nat (length ts)) with (RATE_LIMIT_MAX l1) in Hst1
    by (rewrite Hn1, Hn0; lia).
  rewrite (checkRateLimit_over t sid ip l1 t0 Hst1) by (rewrite Hw1, Hw0; lia).
  destruct (trackAbuse_rates t sid ip l1) as (Hrm & Hri & Hw2 & Hn2).
  destruct (checkRateLimit_reset t' sid ip (trackAbuse t sid ip l1) t0
              (RATE_LIMIT_MAX l1)) as (l3 & E3 & [Hst3 _] & _).
  { destruct Hst1 as [H1 H2]. split; congruence. }
  { rewrite Hw2, Hw1, Hw0. lia. }
  rewrite E3. by repeat split.
Qed.

Lemma rate_limit_window_witness :
  let '(oks, l1) :=
    checkAll "b" "6.6.6.6" [0; 200; 400; 600; 1000] new_limiter in
  let '(ok, l2) := checkRateLimit 1000 "b" "6.6.6.6" l1 in
  let '(ok', l3) := checkRateLimit 1001 "b" "6.6.6.6" l2 in
  oks = repeat true (length [0; 200; 400; 600; 1000]) /\
  ok = false /\
  ok' = true /\
  messageRateLimiter l3 !! "b" = Some (mkLimit 1 1001).
Proof.
  apply (rate_limit_window new_limiter "b" "6.6.6.6" 0 [200; 400; 600; 1000]
           1000 1001).
  - by vm_compute.
  - reflexivity.
  - reflexivity.
  - reflexivity.
  - repeat constructor; by vm_compute.
  - by vm_compute.
  - by vm_compute.
Defined.

(** C5 as stated fails: with the default limit 5 and window 1000 ms, five
    events at time 0 use up the window; at time 1000, when the 1000 ms have
    elapsed, the counter is not reset and the event is refused. *)
Lemma rate_limit_not_reset_at_window_end :
  RATE_LIMIT_WINDOW new_limiter = 1000 /\
  (checkAll "b" "6.6.6.6" [0; 0; 0; 0; 0; 1000] new_limiter).1
  = [true; true; true; true; true; false].
Proof. vm_compute. split; reflexivity. Qed.

(** ** C6: escalation to a block *)

Lemma trackAbuse_blocked now sid ip l :
  blockedSockets l ⊆ blockedSockets (trackAbuse now sid ip l) /\
  blockedIPs l ⊆ blockedIPs (trackAbuse now sid ip l).
Proof.
  unfold trackAbuse.
  destruct (abuseCounter l !! abuseKey sid ip) as [abuse|]; [|done].
  destruct (_ >? _); [done|]. simpl.
  destruct (_ >=? _); [|done]. simpl. split; set_solver.
Qed.

Lemma checkRateLimit_blocked now sid ip l :
  blockedSockets l ⊆ blockedSockets (checkRateLimit now sid ip l).2 /\
  blockedIPs l ⊆ blockedIPs (checkRateLimit now sid ip l).2.
Proof.
  unfold checkRateLimit.
  repeat case_match; simpl; simplify_eq; try done;
    try apply trackAbuse_blocked;
    match goal with
    | |- context [trackAbuse ?n ?s ?i ?x] =>
        destruct (trackAbuse_blocked n s i x); simpl in *; done
    end.
Qed.

Lemma lstep_blocked l l' :
  lstep l l' ->
  blockedSockets l ⊆ blockedSockets l' /\ blockedIPs l ⊆ blockedIPs l'.
Proof.
  intros Hs. destruct Hs; simpl; try done. apply checkRateLimit_blocked.
Qed.

Lemma step_lstep sec now ev s :
  ev <> TimersDue -> lstep (limiter s) (limiter (step sec now ev s).1).
Proof.
  intros Hev.
  destruct ev; try done;
    unfold step, handle, on_connection, on_create_session, on_join_session,
      on_share_public_key, on_get_public_keys, on_send_message, on_typing,
      on_message_status, on_kick_user, on_unban_user, on_get_banned_users,
      on_mute_user, on_disconnect, on_get_session_info, on_leave_session;
    repeat case_match; simpl; try apply ls_id;
    try apply ls_forget; try apply ls_sweep;
    match goal with
    | H : checkRateLimit ?n ?a ?b ?x = (_, ?y) |- lstep _ ?y =>
        replace y with (checkRateLimit n a b x).2 by (by rewrite H);
        apply ls_check
    end.
Qed.

Lemma fold_unblock ts : forall l,
  let l' := fold_left (fun acc t => unblock t acc) ts l in
  (blockedSockets l' ⊆ blockedSockets l /\
   blockedIPs l' ⊆ blockedIPs l /\
   (forall k, abuseCounter l !! k = None -> abuseCounter l' !! k = None)) /\
  forall t, In t ts ->
    (t_socketId t ∉ blockedSockets l') /\
    (t_ip t ∉ blockedIPs l') /\
    abuseCounter l' !! t_abuseKey t = None.
Proof.
  induction ts as [|t0 ts IH]; intros l; simpl.
  - split; [done | by intros t []].
  - destruct (IH (unblock t0 l)) as [(Hs & Hi & Ha) Hin]. simpl in *.
    assert (Hs' : forall x, x ∈ blockedSockets
                      (fold_left (fun acc t => unblock t acc) ts (unblock t0 l)) ->
                    x ∈ blockedSockets l /\ x <> t_socketId t0).
    { intros x Hx. apply Hs, elem_of_difference in Hx as [Hx Hne].
      split; [done|]. intros ->. apply Hne. by apply elem_of_singleton. }
    assert (Hi' : forall x, x ∈ blockedIPs
                      (fold_left (fun acc t => unblock t acc) ts (unblock t0 l)) ->
                    x ∈ blockedIPs l /\ x <> t_ip t0).
    { intros x Hx. apply Hi, elem_of_difference in Hx as [Hx Hne].
      split; [done|]. intros ->. apply Hne. by apply elem_of_singleton. }
    split.
    + split; [intros x Hx; by apply Hs'|]. split; [intros x Hx; by apply Hi'|].
      intros k Hk. apply Ha. destruct (decide (t_abuseKey t0 = k)) as [->|Hne].
      * apply lookup_delete_eq.
      * by rewrite lookup_delete_ne.
    + intros t [<-|Ht]; [|by apply Hin].
      split; [intros Hx; by apply Hs' in Hx as [_ Hx]|].
      split; [intros Hx; by apply Hi' in Hx as [_ Hx]|].
      apply Ha. apply lookup_delete_eq.
Qed.

Lemma runTimers_clears now l t :
  In t (timers l) -> due t <= now ->
  (t_socketId t ∉ blockedSockets (runTimers now l)) /\
  (t_ip t ∉ blockedIPs (runTimers now l)) /\
  abuseCounter (runTimers now l) !! t_abuseKey t = None.
Proof.
  intros Hin Hdue. unfold runTimers. simpl.
  apply (fold_unblock (List.filter (fun t => due t <=? now) (timers l)) l).
  apply filter_In. split; [done|]. by apply Z.leb_le.
Qed.

Lemma isBlocked_true sid ip l : blocked sid ip l -> isBlocked sid ip l = true.
Proof.
  unfold blocked, isBlocked. intros [H|H].
  - by rewrite (bool_decide_eq_true_2 _ H).
  - rewrite (bool_decide_eq_true_2 _ H). apply orb_true_r.
Qed.

Lemma trackAbuse_count now sid ip l abuse :
  abuseCounter l !! abuseKey sid ip = Some abuse ->
  now - windowStart abuse <= ABUSE_WINDOW ->
  abuseCounter (trackAbuse now sid ip l) !! abuseKey sid ip
  = Some (mkLimit (count abuse + 1) (windowStart abuse)) /\
  (count abuse + 1 >= ABUSE_THRESHOLD ->
   sid ∈ blockedSockets (trackAbuse now sid ip l) /\
   ip ∈ blockedIPs (trackAbuse now sid ip l) /\
   In (mkTimer (now + BLOCK_DELAY) sid ip (abuseKey sid ip))
      (timers (trackAbuse now sid ip l))).
Proof.
  intros Hget Hw. unfold trackAbuse. rewrite Hget.
  destruct (Z.gtb_spec (now - windowStart abuse) ABUSE_WINDOW); [lia|]. simpl.
  destruct (Z.geb_spec (count abuse + 1) ABUSE_THRESHOLD); simpl.
  - rewrite lookup_insert_eq. split; [done|]. intros _.
    split; [set_solver|]. split; [set_solver|].
    apply in_or_app. right. by left.
  - rewrite lookup_insert_eq. split; [done | lia].
Qed.

Lemma trackAll_blocks sid ip t0 c ts : forall l k,
  abuseCounter l !! abuseKey sid ip = Some (mkLimit k t0) ->
  Forall (fun u => u - t0 <= ABUSE_WINDOW) ts ->
  ts <> [] ->
  k + Z.of_nat (length ts) >= ABUSE_THRESHOLD ->
  c = trackAll sid ip ts l ->
  sid ∈ blockedSockets c /\ ip ∈ blockedIPs c.
Proof.
  induction ts as [|u ts IH]; intros l k Hget Hall Hne Hlen ->; [done|].
  apply Forall_cons in Hall as [Hu Hall]. simpl length in Hlen.
  destruct (trackAbuse_count u sid ip l _ Hget Hu) as [Hget' Hblock]. simpl in *.
  destruct (Z.geb_spec (k + 1) ABUSE_THRESHOLD) as [Hge|Hlt].
  - destruct Hblock as (Hs & Hi & _); [lia|].
    clear IH Hall Hne Hlen Hget'. unfold trackAll. simpl.
    generalize dependent (trackAbuse u sid ip l). clear.
    induction ts as [|v ts IH]; intros l Hs Hi; [done|]. simpl.
    destruct (trackAbuse_blocked v sid ip l) as [Hs' Hi'].
    apply IH; [by apply Hs' | by apply Hi'].
  - apply (IH (trackAbuse u sid ip l) (k + 1)); try done; [|lia].
    intros ->. simpl in *. lia.
Qed.

(** C6, as the code has it. When [trackAbuse] brings the counter of the key
    [(ip, sid)] to the threshold inside the abuse window, which fifty
    violations read inside one window do, [sid] and [ip] enter the blocked
    sets and a timer is armed for 300 s later. While either is blocked,
    [create-session], [join-session] and [send-message] from that
    connection or address are dropped with no effect and no reply, and a new
    connection from it is disconnected at once; the other events are not
    gated by the block. No event other than the timers takes anything out of
    the blocked sets. When the armed timer runs, [sid] and [ip] leave the
    blocked sets and the counter of the key is deleted. *)
Theorem abuse_block_lifecycle l sid ip now abuse :
  abuseCounter l !! abuseKey sid ip = Some abuse ->
  now - windowStart abuse <= ABUSE_WINDOW ->
  count abuse + 1 >= ABUSE_THRESHOLD ->
  let l' := trackAbuse now sid ip l in
  let timer := mkTimer (now + BLOCK_DELAY) sid ip (abuseKey sid ip) in
  (sid ∈ blockedSockets l' /\ ip ∈ blockedIPs l' /\ In timer (timers l')) /\
  (forall t0 ts l0,
      abuseCounter l0 !! abuseKey sid ip = None ->
      Z.of_nat (length (t0 :: ts)) = ABUSE_THRESHOLD ->
      Forall (fun u => u - t0 <= ABUSE_WINDOW) ts ->
      blocked sid ip (trackAll sid ip (t0 :: ts) l0)) /\
  (forall sec at_ sid' ip' s,
      blocked sid' ip' (limiter s) ->
      (forall nick draw gen,
          on_create_session sec at_ sid' ip' nick draw gen s = (s, [])) /\
      (forall code nick gen,
          on_join_session sec at_ sid' ip' code nick gen s = (s, [])) /\
      (forall data, on_send_message sec at_ sid' ip' data s = (s, [])) /\
      (forall address,
          connected s !! sid' = None -> or_else address "unknown" = ip' ->
          on_connection sid' address s = (s, [ForceDisconnect sid']))) /\
  (forall sec at_ ev s,
      ev <> TimersDue ->
      blockedSockets (limiter s) ⊆ blockedSockets (limiter (step sec at_ ev s).1) /\
      blockedIPs (limiter s) ⊆ blockedIPs (limiter (step sec at_ ev s).1)) /\
  (forall later l1,
      In timer (timers l1) -> now + BLOCK_DELAY <= later ->
      (sid ∉ blockedSockets (runTimers later l1)) /\
      (ip ∉ blockedIPs (runTimers later l1)) /\
      abuseCounter (runTimers later l1) !! abuseKey sid ip = None).
Proof.
  intros Hget Hw Hc l' timer.
  split; [by apply (trackAbuse_count now sid ip l abuse Hget Hw)|].
  split.
  { intros t0 ts l0 Hnone Hlen Hall. simpl length in Hlen.
    assert (Hts : ts <> []).
    { intros ->. unfold ABUSE_THRESHOLD in Hlen. simpl in Hlen. lia. }
    left.
    apply (trackAll_blocks sid ip t0 _ ts (trackAbuse t0 sid ip l0) 1);
      [|done|done|lia|done].
    unfold trackAbuse. rewrite Hnone. simpl. apply lookup_insert_eq. }
  split.
  { intros sec at_ sid' ip' s Hb. apply isBlocked_true in Hb.
    split; [intros; unfold on_create_session; by rewrite Hb|].
    split; [intros; unfold on_join_session; by rewrite Hb|].
    split; [intros; unfold on_send_message; by rewrite Hb|].
    intros address Hconn <-. unfold on_connection. by rewrite Hconn, Hb. }
  split.
  { intros sec at_ ev s Hev. apply lstep_blocked. by apply step_lstep. }
  intros later l1 Hin Hlater.
  apply (runTimers_clears later l1 timer Hin). simpl. lia.
Qed.

Lemma abuse_block_lifecycle_witness :
  "b" ∈ blockedSockets (trackAbuse 10 "b" "6.6.6.6" nearly_blocked) /\
  "6.6.6.6" ∈ blockedIPs (trackAbuse 10 "b" "6.6.6.6" nearly_blocked) /\
  on_send_message index_security 11 "b" "6.6.6.6" hello
    (mkServer (trackAbuse 10 "b" "6.6.6.6" nearly_blocked) new_manager ∅)
  = (mkServer (trackAbuse 10 "b" "6.6.6.6" nearly_blocked) new_manager ∅, []) /\
  ("b" ∉ blockedSockets
           (runTimers 300010 (trackAbuse 10 "b" "6.6.6.6" nearly_blocked))).
Proof.
  assert (H1 : abuseCounter nearly_blocked !! abuseKey "b" "6.6.6.6"
               = Some (mkLimit 49 0)) by (by vm_compute).
  assert (H2 : 10 - windowStart (mkLimit 49 0) <= ABUSE_WINDOW) by (by vm_compute).
  assert (H3 : count (mkLimit 49 0) + 1 >= ABUSE_THRESHOLD) by (by vm_compute).
  destruct (abuse_block_lifecycle nearly_blocked "b" "6.6.6.6" 10 (mkLimit 49 0)
              H1 H2 H3) as ((Hs & Hi & Ht) & _ & Hgate & _ & Hclear).
  split; [exact Hs|]. split; [exact Hi|]. split.
  - apply (Hgate index_security 11 "b" "6.6.6.6"
             (mkServer (trackAbuse 10 "b" "6.6.6.6" nearly_blocked) new_manager ∅)).
    left. exact Hs.
  - apply (Hclear 300010 (trackAbuse 10 "b" "6.6.6.6" nearly_blocked) Ht).
    by vm_compute.
Defined.

(** C6 as stated fails: ["b"] and its address are blocked, yet its
    [typing] event is relayed to the room and its [leave-session] is carried
    out. *)
Lemma blocked_connection_still_heard :
  isBlocked "b" "6.6.6.6" (limiter flooder_blocked) = true /\
  (step index_security 20 (TypingEv "b" (Some "AAAAAAAA") true) flooder_blocked).2
  = [EmitRoom "AAAAAAAA" (Some "b") (UserTyping "b" "Bob" true)] /\
  JsMap.keys (sessions (manager flooder_blocked)) = ["AAAAAAAA"] /\
  JsMap.keys (sessions (manager
     (step index_security 20 (LeaveSession "b") flooder_blocked).1)) = [].
Proof. vm_compute. repeat split. Qed.

(** ** C10: what a disconnect leaves behind *)

(** C10. ["b"] sends six messages in one window, the sixth is refused and
    counted as abuse, and ["b"] disconnects. The disconnect handler takes
    ["b"] out of its session and out of [messageRateLimiter], but the
    abuse counter keyed by ["6.6.6.6:b"] stays, and neither the sweeps nor
    the timers ever remove it. *)
Theorem disconnect_leaves_abuse_counter :
  connected flooder_left !! "b" = None /\
  memberships "b" (manager flooder_left) = [] /\
  messageRateLimiter (limiter flooder_left) !! "b" = None /\
  abuseCounter (limiter flooder_left) !! abuseKey "b" "6.6.6.6"
  = Some (mkLimit 1 10).
Proof. vm_compute. repeat split. Qed.

(** A connection that is in two sessions when it disconnects is removed
    from the first one only. *)
Lemma disconnect_leaves_second_membership :
  map fst (memberships "b"
             (manager (run index_security (double_join ++ [(3, Disconnect "b")])%list
                           (setupSocketHandlers None None))))
  = ["BBBBBBBB"].
Proof. vm_compute. reflexivity. Qed.

(** * Further properties of the session manager *)

(** ** Generated codes *)

Lemma charAt_alphabet_valid i :
  (i < 36)%nat ->
  exists c, charAt i alphabet = String c EmptyString /\ is_upper_or_digit c = true.
Proof.
  intros Hi. do 36 (destruct i as [|i]; [eexists; split; reflexivity|]). lia.
Qed.

Lemma chars_app a b : chars (a ++ b) = (chars a ++ chars b)%list.
Proof. induction a as [|c a IH]; simpl; [done|]. unfold chars in *. simpl. by rewrite IH. Qed.

Lemma generateLoop_format draw i : forall k code,
  (forall j, (k <= j < k + i)%nat -> (draw j < 36)%nat) ->
  forallb is_upper_or_digit (chars code) = true ->
  length (chars (generateLoop draw k i code)) = (length (chars code) + i)%nat /\
  forallb is_upper_or_digit (chars (generateLoop draw k i code)) = true.
Proof.
  induction i as [|i IH]; intros k code Hdraw Hcode; simpl.
  - split; [lia | done].
  - destruct (charAt_alphabet_valid (draw k)) as (c & Hc & Hv); [apply Hdraw; lia|].
    destruct (IH (S k) (code ++ charAt (draw k) alphabet)) as [Hlen Hall].
    + intros j Hj. apply Hdraw. lia.
    + rewrite chars_app, forallb_app, Hcode, Hc. simpl. by rewrite Hv.
    + split; [|done]. rewrite Hlen, chars_app, length_app, Hc. simpl. lia.
Qed.

(** X1. When every draw is an index into the alphabet, the generated code
    has eight characters, all of them upper-case letters or digits, and the
    session-code check of index.js accepts it. *)
Theorem generateSessionCode_format draw :
  (forall j, (j < 8)%nat -> (draw j < 36)%nat) ->
  length (chars (generateSessionCode draw)) = 8%nat /\
  forallb is_upper_or_digit (chars (generateSessionCode draw)) = true /\
  index_isValidSessionCode (generateSessionCode draw) = true.
Proof.
  intros Hdraw.
  destruct (generateLoop_format draw 8 0 "") as [Hlen Hall];
    [intros j Hj; apply Hdraw; lia | done |].
  fold (generateSessionCode draw) in Hlen, Hall. simpl in Hlen.
  split; [done|]. split; [done|].
  unfold index_isValidSessionCode.
  by rewrite generateSessionCode_upper, Hall, Hlen.
Qed.

Lemma generateSessionCode_format_witness :
  length (chars (generateSessionCode (fun j => (j * 5)%nat))) = 8%nat /\
  forallb is_upper_or_digit (chars (generateSessionCode (fun j => (j * 5)%nat))) = true /\
  index_isValidSessionCode (generateSessionCode (fun j => (j * 5)%nat)) = true.
Proof.
  apply (generateSessionCode_format (fun j => (j * 5)%nat)).
  intros j Hj. lia.
Defined.

(** ** Creating and finding a session *)

(** X2. [createSession] files the new session under the generated code:
    [getSession] finds it under any spelling whose upper case is the code,
    its admin is the creator, the creator is its only member, and the
    sessions under every other code are as before. *)
Theorem createSession_lookup now draw gen sid nick m c :
  toUpperCase c = generateSessionCode draw ->
  let '((code, nickname, session), m') := createSession now draw gen sid nick m in
  getSession c m' = Some session /\
  adminId session = sid /\
  users session = [(sid, mkUser sid (or_else nick gen) now true None)] /\
  bannedUsers session = [] /\
  forall k, k <> code -> JsMap.get k (sessions m') = JsMap.get k (sessions m).
Proof.
  intros Hc. unfold createSession, getSession. simpl. rewrite Hc.
  rewrite JsMapFacts.get_set_eq. repeat split; try done.
  intros k Hk. by apply JsMapFacts.get_set_ne.
Qed.

Lemma createSession_lookup_witness :
  let '((code, nickname, session), m') :=
    createSession 3 (draw_const 0) "Carol" "c" None new_manager in
  getSession "aaAAaaAA" m' = Some session /\
  adminId session = "c" /\
  users session = [("c", mkUser "c" (or_else None "Carol") 3 true None)] /\
  bannedUsers session = [] /\
  forall k, k <> code -> JsMap.get k (sessions m') = JsMap.get k (sessions new_manager).
Proof.
  exact (createSession_lookup 3 (draw_const 0) "Carol" "c" None new_manager
           "aaAAaaAA" eq_refl).
Defined.

(** ** Joining *)

(** X3. What [joinSession] does. A refusal leaves the registry exactly as
    it was. On success the session found under the code now holds the
    caller as a non-admin member with the given nickname (or the generated
    one), join time and address, its [lastActivity] is the current time,
    and its admin, ban table and every other member are as before. *)
Theorem joinSession_outcome now gen code sid nick ip m :
  let '(r, m') := joinSession now gen code sid nick ip m in
  match r with
  | JoinOk n s' =>
      exists old,
        getSession code m = Some old /\
        getSession code m' = Some s' /\
        n = or_else nick gen /\
        JsMap.get sid (users s') = Some (mkUser sid n now false ip) /\
        lastActivity s' = now /\
        adminId s' = adminId old /\
        bannedUsers s' = bannedUsers old /\
        forall other, other <> sid ->
          JsMap.get other (users s') = JsMap.get other (users old)
  | _ => m' = m
  end.
Proof.
  unfold joinSession, getSession.
  destruct (JsMap.get (toUpperCase code) (sessions m)) as [old|] eqn:E; [|done].
  destruct (_ >=? _); [done|].
  destruct (if truthy ip then _ else _); [done|].
  exists old. simpl. rewrite !JsMapFacts.get_set_eq. repeat split; try done.
  intros other Hne. by apply JsMapFacts.get_set_ne.
Qed.

(** ** Bans *)

Lemma set_same {V} k (v : V) m : JsMap.get k m = Some v -> JsMap.set k v m = m.
Proof.
  induction m as [|[k' v'] m IH]; simpl; [done|].
  destruct (String.eqb_spec k k') as [->|Hne].
  - by intros [= ->].
  - intros H. by rewrite IH.
Qed.

Lemma set_set {V} k (v v' : V) m :
  JsMap.set k v (JsMap.set k v' m) = JsMap.set k v m.
Proof.
  induction m as [|[k2 v2] m IH]; simpl.
  - by rewrite String.eqb_refl.
  - destruct (String.eqb_spec k k2) as [->|Hne]; simpl.
    + by rewrite String.eqb_refl.
    + destruct (String.eqb_spec k k2); [done|]. by rewrite IH.
Qed.

Lemma delete_set_absent {V} k (v : V) m :
  JsMap.get k m = None -> JsMap.delete k (JsMap.set k v m) = m.
Proof.
  induction m as [|[k' v'] m IH]; simpl.
  - by rewrite String.eqb_refl.
  - destruct (String.eqb_spec k k') as [->|Hne]; [done|]. simpl.
    destruct (String.eqb_spec k k'); [done|]. intros H. by rewrite IH.
Qed.

Lemma delete_absent {V} k (m : list (string * V)) :
  JsMap.get k m = None -> JsMap.delete k m = m.
Proof.
  induction m as [|[k' v'] m IH]; simpl; [done|].
  destruct (String.eqb_spec k k') as [->|Hne]; [done|]. intros H. by rewrite IH.
Qed.

Lemma set_bannedUsers_same s : set_bannedUsers (bannedUsers s) s = s.
Proof. by destruct s. Qed.

(** X4. Banning an address that was not banned and then unbanning it is a
    round trip: [unbanUser] answers [true] and the registry is exactly what
    it was before the ban. *)
Theorem ban_then_unban now code ip nick m session :
  getSession code m = Some session ->
  ip <> "" ->
  JsMap.has ip (bannedUsers session) = false ->
  unbanUser code ip (banUser now code (Some ip) nick m).2 = (true, m).
Proof.
  unfold getSession, banUser, unbanUser, JsMap.has. intros Hg Hip Hb. rewrite Hg.
  destruct ip as [|a r]; [done|]. simpl.
  rewrite JsMapFacts.get_set_eq. simpl. rewrite JsMapFacts.get_set_eq.
  destruct (JsMap.get (String a r) (bannedUsers session)) eqn:E; [done|].
  rewrite delete_set_absent by done. rewrite set_set.
  replace (set_bannedUsers (bannedUsers session) _) with session
    by (by destruct session).
  rewrite set_same by done. by destruct m.
Qed.

Lemma ban_then_unban_witness :
  unbanUser "AAAAAAAA" "9.9.9.9"
    (banUser 4 "aaaaaaaa" (Some "9.9.9.9") "Mallory" (manager two_members)).2
  = (true, manager two_members).
Proof.
  apply (ban_then_unban 4 "AAAAAAAA" "9.9.9.9" "Mallory" (manager two_members)
           two_members_session); by vm_compute.
Defined.

(** X5. When [unbanUser] answers [false] (the code is unknown or the
    address is not in the ban table), the registry is left exactly as it
    was. *)
Theorem unbanUser_absent code ip m :
  (unbanUser code ip m).1 = false -> (unbanUser code ip m).2 = m.
Proof.
  unfold unbanUser, JsMap.has.
  destruct (JsMap.get (toUpperCase code) (sessions m)) as [session|] eqn:E; [|done].
  simpl. destruct (JsMap.get ip (bannedUsers session)) eqn:Eb; [done|]. intros _.
  rewrite delete_absent by done. rewrite set_bannedUsers_same, set_same by done.
  by destruct m.
Qed.

Lemma unbanUser_absent_witness :
  (unbanUser "AAAAAAAA" "9.9.9.9" (manager two_members)).2 = manager two_members.
Proof. apply unbanUser_absent. by vm_compute. Defined.

(** X6. [banUser] refuses an absent or empty address and an unknown code,
    changing nothing. Otherwise it answers [true], the ban list of the
    session shows the address with the given nickname and the current time,
    and a join from that address is answered as banned, with that nickname,
    as long as the session is not full. *)
Theorem banUser_then_join now code ip nick m :
  let '(ok, m') := banUser now code ip nick m in
  if ok then
    exists a session,
      ip = Some a /\ a <> "" /\
      getSession code m = Some session /\
      In (mkBannedEntry a nick now) (getBannedUsers code m') /\
      forall at_ gen sid n,
        JsMap.size (users session) < MAX_USERS ->
        joinSession at_ gen code sid n (Some a) m' = (JoinBanned nick, m')
  else
    m' = m /\ (truthy ip = false \/ getSession code m = None).
Proof.
  unfold banUser, getSession.
  destruct (JsMap.get (toUpperCase code) (sessions m)) as [session|] eqn:E;
    [|by split; [|right]].
  destruct (truthy ip) eqn:Hip; [|by split; [|left]].
  destruct ip as [a|]; [|done]. destruct a as [|c r]; [done|]. simpl.
  exists (String c r), session. repeat split; try done.
  - unfold getBannedUsers. simpl. rewrite JsMapFacts.get_set_eq. simpl.
    apply in_map_iff. exists (String c r, mkBanInfo nick now "Kicked by admin").
    split; [done|]. apply JsMapFacts.get_Some_In, JsMapFacts.get_set_eq.
  - intros at_ gen sid n Hsz. unfold joinSession. simpl.
    rewrite JsMapFacts.get_set_eq. simpl.
    destruct (Z.geb_spec (JsMap.size (users session)) MAX_USERS); [lia|].
    by rewrite JsMapFacts.get_set_eq.
Qed.

(** ** Expiry *)

(** X7. In a reachable state, after [cleanupExpiredSessions] at time [now] a
    code finds a session exactly when it found that session before and the
    session has been active within the last fifteen minutes, this instant
    included; sweeping twice at the same time changes nothing more. *)
Theorem cleanupExpiredSessions_lookup sec s now code :
  reachable sec s ->
  getSession code (cleanupExpiredSessions now (manager s)) =
    match getSession code (manager s) with
    | Some session =>
        if now - lastActivity session >? 15 * 60 * 1000 then None else Some session
    | None => None
    end /\
  cleanupExpiredSessions now (cleanupExpiredSessions now (manager s))
  = cleanupExpiredSessions now (manager s).
Proof.
  intros Hr. destruct (reachable_registry_wf _ _ Hr) as [Hwf _]. split.
  - unfold getSession, cleanupExpiredSessions. simpl. rewrite get_filter by done.
    destruct (JsMap.get (toUpperCase code) (sessions (manager s))); [|done].
    simpl. unfold SESSION_EXPIRY. by destruct (_ >? _).
  - clear Hwf. unfold cleanupExpiredSessions. simpl. f_equal.
    induction (sessions (manager s)) as [|e l IH]; simpl; [done|].
    destruct (negb _) eqn:E; simpl; [|done]. by rewrite E, IH.
Qed.

Lemma cleanupExpiredSessions_lookup_witness :
  getSession "AAAAAAAA" (cleanupExpiredSessions 900001 (manager two_members)) =
    match getSession "AAAAAAAA" (manager two_members) with
    | Some session =>
        if 900001 - lastActivity session >? 15 * 60 * 1000 then None else Some session
    | None => None
    end /\
  cleanupExpiredSessions 900001 (cleanupExpiredSessions 900001 (manager two_members))
  = cleanupExpiredSessions 900001 (manager two_members).
Proof.
  exact (cleanupExpiredSessions_lookup index_security two_members 900001 "AAAAAAAA"
           two_members_reachable).
Defined.

(** X8. Activity keeps a session alive: in a reachable state, a session
    whose activity was recorded at time [t] survives every sweep run no
    later than fifteen minutes after [t], whatever its age. *)
Theorem updateActivity_survives_sweep sec s t now code session :
  reachable sec s ->
  getSession code (manager s) = Some session ->
  now - t <= 15 * 60 * 1000 ->
  getSession code (cleanupExpiredSessions now (updateActivity t code (manager s)))
  = Some (set_lastActivity t session).
Proof.
  intros Hr Hg Hnow. destruct (reachable_registry_wf _ _ Hr) as [Hwf _].
  unfold getSession in *. unfold updateActivity. rewrite Hg.
  unfold cleanupExpiredSessions. simpl.
  rewrite get_filter by (by apply JsMapFacts.set_wf).
  rewrite JsMapFacts.get_set_eq. simpl. unfold SESSION_EXPIRY.
  by destruct (Z.gtb_spec (now - t) (15 * 60 * 1000)); [lia|].
Qed.

Lemma updateActivity_survives_sweep_witness :
  getSession "aaaaaaaa"
    (cleanupExpiredSessions 5000000
       (updateActivity 4100000 "aaaaaaaa" (manager two_members)))
  = Some (set_lastActivity 4100000 two_members_session).
Proof.
  apply (updateActivity_survives_sweep index_security two_members 4100000 5000000
           "aaaaaaaa" two_members_session two_members_reachable); by vm_compute.
Defined.

(** ** Public keys *)

(** X9. A public key stored for a connection in a live session is what
    [getPublicKeys] then shows for that connection, and the keys of the
    other connections are as before; for an unknown code [storePublicKey]
    answers [false] and changes nothing. *)
Theorem storePublicKey_lookup code sid key m :
  let '(ok, m') := storePublicKey code sid key m in
  if ok then
    JsMap.get sid (getPublicKeys code m') = Some key /\
    forall other, other <> sid ->
      JsMap.get other (getPublicKeys code m') = JsMap.get other (getPublicKeys code m)
  else m' = m /\ getSession code m = None.
Proof.
  unfold storePublicKey, getPublicKeys, getSession.
  destruct (JsMap.get (toUpperCase code) (sessions m)) as [session|] eqn:E; [|done].
  simpl. rewrite !JsMapFacts.get_set_eq. simpl. split.
  - apply JsMapFacts.get_set_eq.
  - intros other Hne. by apply JsMapFacts.get_set_ne.
Qed.

(** ** The member list *)





(** ** Global bounds *)

Lemma In_get_is_Some {V} k (v : V) m : In (k, v) m -> is_Some (JsMap.get k m).
Proof.
  induction m as [|[k' v'] m IH]; simpl; [done|].
  destruct (String.eqb_spec k k'); [by eauto|].
  intros [[= -> ->]|H]; [done | by apply IH].
Qed.

Lemma length_set_present {V} k (v : V) m :
  is_Some (JsMap.get k m) -> length (JsMap.set k v m) = length m.
Proof. intros [x Hx]. by rewrite JsMapFacts.length_set, Hx. Qed.

Lemma length_filter_le {A} (f : A -> bool) (l : list A) :
  (length (List.filter f l) <= length l)%nat.
Proof. induction l as [|x l IH]; simpl; [done|]. destruct (f x); simpl; lia. Qed.

Lemma mstep_session_count op m m' :
  mstep op m m' ->
  (forall sid c, op <> OpCreate sid c) ->
  (length (sessions m') <= length (sessions m))%nat.
Proof.
  intros Hs Hop. destruct Hs; simpl; try done.
  - by destruct (Hop sid (generateSessionCode draw)).
  - unfold joinSession.
    destruct (JsMap.get (toUpperCase _) (sessions m)) as [session|] eqn:E; [|done].
    destruct (_ >=? _); [done|].
    destruct (if truthy ip then _ else _); [done|]. simpl.
    by rewrite length_set_present.
  - unfold removeUser, getSessionBySocketId.
    destruct (scanSessions sid (sessions m)) as [[c session]|] eqn:E; [|done].
    apply scanSessions_Some in E as [Hin _]. apply In_get_is_Some in Hin.
    simpl. destruct (_ =? 0); simpl.
    + apply JsMapFacts.length_delete.
    + by rewrite length_set_present.
  - unfold banUser.
    destruct (JsMap.get (toUpperCase _) (sessions m)) as [session|] eqn:E; [|done].
    destruct (truthy ip); [|done]. simpl. by rewrite length_set_present.
  - unfold unbanUser.
    destruct (JsMap.get (toUpperCase _) (sessions m)) as [session|] eqn:E; [|done].
    simpl. by rewrite length_set_present.
  - unfold storePublicKey.
    destruct (JsMap.get (toUpperCase _) (sessions m)) as [session|] eqn:E; [|done].
    simpl. by rewrite length_set_present.
  - unfold updateActivity.
    destruct (JsMap.get (toUpperCase _) (sessions m)) as [session|] eqn:E; [|done].
    simpl. by rewrite length_set_present.
  - apply length_filter_le.
  - by rewrite length_set_present.
Qed.

Lemma event_create_or_not ev :
  (exists sid nick draw gen, ev = CreateSession sid nick draw gen) \/
  (forall sid c, op_of ev <> OpCreate sid c).
Proof. destruct ev; try (by right); left; eauto. Qed.

Lemma step_session_count sec now ev s :
  getActiveSessionCount (manager s) <= 1000 ->
  getActiveSessionCount (manager (step sec now ev s).1) <= 1000.
Proof.
  unfold getActiveSessionCount, JsMap.size. intros Hinv.
  destruct (event_create_or_not ev) as [(sid & nick & draw & gen & ->)|Hne].
  - unfold step, handle. destruct (connected s !! sid); [|done].
    unfold on_create_session. destruct (isBlocked _ _ _); [done|].
    unfold getActiveSessionCount, JsMap.size.
    destruct (Z.geb_spec (Z.of_nat (length (sessions (manager s)))) 1000); [done|].
    simpl. pose proof (JsMapFacts.length_set (generateSessionCode draw)
      (set_users (JsMap.set sid
         (mkUser sid (or_else (customNickname sec nick) gen) now true None) [])
         (mkSession (generateSessionCode draw) now now sid [] [] []))
      (sessions (manager s))) as Hlen.
    simpl in Hlen. rewrite Hlen. destruct (JsMap.get _ _); lia.
  - destruct (step_mstep sec now ev s) as (m1 & H1 & H2).
    apply mstep_session_count in H1; [|done].
    apply mstep_session_count in H2; [|done]. lia.
Qed.

Lemma reachable_invariant sec (I : Server -> Prop) :
  (forall window max, I (setupSocketHandlers window max)) ->
  (forall now ev s, I s -> I (step sec now ev s).1) ->
  forall s, reachable sec s -> I s.
Proof.
  intros Hinit Hstep s (w & n & trace & ->).
  generalize (Hinit w n). generalize (setupSocketHandlers w n).
  induction trace as [|[now ev] trace IH]; intros s Hs; [done|].
  simpl. apply IH. by apply Hstep.
Qed.

Lemma total_users_bound (l : list (string * Session)) : forall a,
  Forall (fun e => 0 <= JsMap.size (users e.2) <= MAX_USERS) l ->
  a <= fold_left (fun count e => count + JsMap.size (users e.2)) l a
    <= a + 64 * Z.of_nat (length l).
Proof.
  induction l as [|e l IH]; intros a Hall; simpl; [lia|].
  apply Forall_cons in Hall as [He Hall]. specialize (IH (a + JsMap.size (users e.2)) Hall).
  unfold MAX_USERS in He. lia.
Qed.

Lemma reachable_session_count sec s :
  reachable sec s -> getActiveSessionCount (manager s) <= 1000.
Proof.
  revert s. apply reachable_invariant.
  - intros w n. by vm_compute.
  - intros now ev s. apply step_session_count.
Qed.

(** X11. The server never holds more than 1000 sessions: in every reachable
    state [getActiveSessionCount] is at most 1000, because [create-session]
    is refused at that count and no other event adds a session. *)
Theorem session_count_cap sec s :
  reachable sec s -> 0 <= getActiveSessionCount (manager s) <= 1000.
Proof.
  intros Hr. split; [unfold getActiveSessionCount, JsMap.size; lia|].
  by apply (reachable_session_count sec).
Qed.

Lemma session_count_cap_witness :
  0 <= getActiveSessionCount (manager full_house) <= 1000.
Proof. exact (session_count_cap index_security full_house full_house_reachable). Defined.

(** X12. The health counters agree with the capacity: in every reachable
    state [getTotalUserCount] is between 0 and 64 times the number of live
    sessions, hence at most 64000. *)
Theorem total_user_count_bound sec s :
  reachable sec s ->
  0 <= getTotalUserCount (manager s) <= 64 * getActiveSessionCount (manager s) /\
  getTotalUserCount (manager s) <= 64000.
Proof.
  intros Hr. pose proof (reachable_within_capacity _ _ Hr) as Hcap.
  pose proof (reachable_session_count _ _ Hr) as Hcount.
  pose proof (total_users_bound (sessions (manager s)) 0 Hcap) as Hsum.
  unfold getTotalUserCount, getActiveSessionCount, JsMap.size in *. lia.
Qed.

Lemma total_user_count_bound_witness :
  0 <= getTotalUserCount (manager full_house)
    <= 64 * getActiveSessionCount (manager full_house) /\
  getTotalUserCount (manager full_house) <= 64000.
Proof. exact (total_user_count_bound index_security full_house full_house_reachable). Defined.

(** * Further properties of the limiter *)

Lemma trackAbuse_records now sid ip l :
  is_Some (abuseCounter (trackAbuse now sid ip l) !! abuseKey sid ip).
Proof.
  unfold trackAbuse.
  destruct (abuseCounter l !! abuseKey sid ip) as [abuse|]; simpl.
  - destruct (_ >? _); simpl; [by rewrite lookup_insert_eq|].
    destruct (_ >=? _); simpl; by rewrite lookup_insert_eq.
  - by rewrite lookup_insert_eq.
Qed.

(** X13. The address window binds every connection of the address: once the
    counter of an address stands at three times the limit inside its window,
    an event from any connection of that address is refused, the violation
    is recorded in the abuse counter, and the address counter is left as it
    is. *)
Theorem address_limit_refuses_all now sid ip l ipLimit :
  socketRateLimiters l !! ip = Some ipLimit ->
  now - windowStart ipLimit <= RATE_LIMIT_WINDOW l ->
  count ipLimit >= RATE_LIMIT_MAX l * 3 ->
  let '(ok, l') := checkRateLimit now sid ip l in
  ok = false /\
  socketRateLimiters l' = socketRateLimiters l /\
  is_Some (abuseCounter l' !! abuseKey sid ip).
Proof.
  intros Hi Hw Hc. unfold checkRateLimit.
  assert (Hip : forall x,
             socketRateLimiters x = socketRateLimiters l ->
             RATE_LIMIT_WINDOW x = RATE_LIMIT_WINDOW l ->
             RATE_LIMIT_MAX x = RATE_LIMIT_MAX l ->
             let '(ok, l') :=
               match socketRateLimiters x !! ip with
               | Some ipLimit0 =>
                   if now - windowStart ipLimit0 >? RATE_LIMIT_WINDOW x
                   then (true, set_socketRateLimiters
                                 (<[ip:=mkLimit 1 now]> (socketRateLimiters x)) x)
                   else
                     if count ipLimit0 >=? RATE_LIMIT_MAX x * 3
                     then (false, trackAbuse now sid ip x)
                     else (true, set_socketRateLimiters
                                   (<[ip:=mkLimit (count ipLimit0 + 1)
                                                  (windowStart ipLimit0)]>
                                      (socketRateLimiters x)) x)
               | None => (true, set_socketRateLimiters
                                  (<[ip:=mkLimit 1 now]> (socketRateLimiters x)) x)
               end in
             ok = false /\ socketRateLimiters l' = socketRateLimiters l /\
             is_Some (abuseCounter l' !! abuseKey sid ip)).
  { intros x Hx Hwx Hnx. rewrite Hx, Hi, Hwx, Hnx.
    destruct (Z.gtb_spec (now - windowStart ipLimit) (RATE_LIMIT_WINDOW l)); [lia|].
    destruct (Z.geb_spec (count ipLimit) (RATE_LIMIT_MAX l * 3)); [|lia].
    split; [done|]. destruct (trackAbuse_rates now sid ip x) as (_ & Hr & _).
    split; [congruence | apply trackAbuse_records]. }
  destruct (messageRateLimiter l !! sid) as [userLimit|].
  - destruct (_ >? _).
    + match goal with
      | |- context [trackAbuse now sid ip ?x] =>
          exact (Hip x eq_refl eq_refl eq_refl)
      end.
    + destruct (_ >=? _).
      * split; [done|]. destruct (trackAbuse_rates now sid ip l) as (_ & Hr & _).
        split; [done | apply trackAbuse_records].
      * match goal with
        | |- context [trackAbuse now sid ip ?x] =>
            exact (Hip x eq_refl eq_refl eq_refl)
        end.
  - match goal with
    | |- context [trackAbuse now sid ip ?x] =>
        exact (Hip x eq_refl eq_refl eq_refl)
    end.
Qed.

Lemma address_limit_refuses_all_witness :
  let '(ok, l') :=
    checkRateLimit 500 "fresh" "6.6.6.6"
      (set_socketRateLimiters {["6.6.6.6" := mkLimit 15 0]} new_limiter) in
  ok = false /\
  socketRateLimiters l'
  = socketRateLimiters
      (set_socketRateLimiters {["6.6.6.6" := mkLimit 15 0]} new_limiter) /\
  is_Some (abuseCounter l' !! abuseKey "fresh" "6.6.6.6").
Proof.
  apply (address_limit_refuses_all 500 "fresh" "6.6.6.6"
           (set_socketRateLimiters {["6.6.6.6" := mkLimit 15 0]} new_limiter)
           (mkLimit 15 0)); by vm_compute.
Defined.

(** X14. The five-minute sweep drops exactly the rate-limit entries whose
    window started more than 60 s ago and keeps the others as they are; it
    never touches the abuse counters, the blocked sets, the timers or the
    configuration. *)
Theorem sweepRateLimits_lookup now l k :
  messageRateLimiter (sweepRateLimits now l) !! k =
    match messageRateLimiter l !! k with
    | Some d => if now - windowStart d >? 60000 then None else Some d
    | None => None
    end /\
  socketRateLimiters (sweepRateLimits now l) !! k =
    match socketRateLimiters l !! k with
    | Some d => if now - windowStart d >? 60000 then None else Some d
    | None => None
    end /\
  abuseCounter (sweepRateLimits now l) = abuseCounter l /\
  blockedSockets (sweepRateLimits now l) = blockedSockets l /\
  blockedIPs (sweepRateLimits now l) = blockedIPs l /\
  timers (sweepRateLimits now l) = timers l /\
  same_config l (sweepRateLimits now l).
Proof.
  assert (H : forall (m : gmap string Limit),
             filter (fun kv : string * Limit => ~ (now - windowStart kv.2 > 60000)) m !! k =
             match m !! k with
             | Some d => if now - windowStart d >? 60000 then None else Some d
             | None => None
             end).
  { intros m. destruct (m !! k) as [d|] eqn:E.
    - destruct (Z.gtb_spec (now - windowStart d) 60000).
      + apply map_lookup_filter_None. right. intros x Hx. simpl.
        rewrite E in Hx. injection Hx as <-. lia.
      + apply map_lookup_filter_Some. split; [done|]. simpl. lia.
    - apply map_lookup_filter_None. by left. }
  unfold sweepRateLimits. simpl. by rewrite !H.
Qed.

(** X15. A violation that does not bring the counter to the threshold inside
    the abuse window blocks nobody: the blocked sets and the timers are
    unchanged. In particular a violation that comes more than 60 s after
    the window started restarts the counter at one. *)
Theorem trackAbuse_below_threshold now sid ip l :
  match abuseCounter l !! abuseKey sid ip with
  | Some abuse =>
      now - windowStart abuse > ABUSE_WINDOW \/ count abuse + 1 < ABUSE_THRESHOLD
  | None => True
  end ->
  blockedSockets (trackAbuse now sid ip l) = blockedSockets l /\
  blockedIPs (trackAbuse now sid ip l) = blockedIPs l /\
  timers (trackAbuse now sid ip l) = timers l /\
  (forall abuse,
      abuseCounter l !! abuseKey sid ip = Some abuse ->
      now - windowStart abuse > ABUSE_WINDOW ->
      abuseCounter (trackAbuse now sid ip l) !! abuseKey sid ip
      = Some (mkLimit 1 now)).
Proof.
  unfold trackAbuse.
  destruct (abuseCounter l !! abuseKey sid ip) as [abuse|] eqn:E; [|done].
  intros H. destruct (Z.gtb_spec (now - windowStart abuse) ABUSE_WINDOW); simpl.
  - repeat split; try done. intros a [= <-] _. apply lookup_insert_eq.
  - destruct H as [H|H]; [lia|].
    destruct (Z.geb_spec (count abuse + 1) ABUSE_THRESHOLD); [lia|]. simpl.
    repeat split; try done. intros a [= <-] Hw. lia.
Qed.

Lemma trackAbuse_below_threshold_witness :
  blockedSockets (trackAbuse 70000 "b" "6.6.6.6" nearly_blocked)
  = blockedSockets nearly_blocked /\
  blockedIPs (trackAbuse 70000 "b" "6.6.6.6" nearly_blocked)
  = blockedIPs nearly_blocked /\
  timers (trackAbuse 70000 "b" "6.6.6.6" nearly_blocked) = timers nearly_blocked /\
  abuseCounter (trackAbuse 70000 "b" "6.6.6.6" nearly_blocked)
    !! abuseKey "b" "6.6.6.6" = Some (mkLimit 1 70000).
Proof.
  assert (H : match abuseCounter nearly_blocked !! abuseKey "b" "6.6.6.6" with
              | Some abuse =>
                  70000 - windowStart abuse > ABUSE_WINDOW \/
                  count abuse + 1 < ABUSE_THRESHOLD
              | None => True
              end).
  { vm_compute. by left. }
  destruct (trackAbuse_below_threshold 70000 "b" "6.6.6.6" nearly_blocked H)
    as (H1 & H2 & H3 & H4).
  split; [exact H1|]. split; [exact H2|]. split; [exact H3|].
  apply (H4 (mkLimit 49 0)); by vm_compute.
Defined.





(** * Further properties of the handlers *)

(** X17. The admin-only operations are refused to everyone else: when the
    caller is not the admin of the session named, [kick-user], [unban-user],
    [get-banned-users] and [mute-user] answer with their "only admin" error,
    emit nothing else and leave the server state exactly as it was. *)
Theorem admin_only_operations now sid code target ip muted s session :
  code <> "" -> target <> "" -> ip <> "" ->
  getSession code (manager s) = Some session ->
  adminId session <> sid ->
  on_kick_user now sid (Some code) (Some target) s
  = (s, [Callback sid (RError "Only admin can kick users")]) /\
  on_unban_user sid (Some code) (Some ip) s
  = (s, [Callback sid (RError "Only admin can unban users")]) /\
  on_get_banned_users sid (Some code) s
  = (s, [Callback sid (RError "Only admin can view banned users")]) /\
  on_mute_user sid (Some code) (Some target) muted s
  = (s, [Callback sid (RError "Only admin can mute users")]).
Proof.
  intros Hc Ht Hi Hg Ha.
  assert (Hne : negb (String.eqb (adminId session) sid) = true)
    by (by destruct (String.eqb_spec (adminId session) sid)).
  unfold on_kick_user, on_unban_user, on_get_banned_users, on_mute_user.
  destruct code; [done|]. destruct target; [done|]. destruct ip; [done|].
  simpl in *. by rewrite Hg, Hne.
Qed.

Lemma admin_only_operations_witness :
  on_kick_user 9 "0" (Some "AAAAAAAA") (Some "admin") two_members
  = (two_members, [Callback "0" (RError "Only admin can kick users")]) /\
  on_unban_user "0" (Some "AAAAAAAA") (Some "9.9.9.9") two_members
  = (two_members, [Callback "0" (RError "Only admin can unban users")]) /\
  on_get_banned_users "0" (Some "AAAAAAAA") two_members
  = (two_members, [Callback "0" (RError "Only admin can view banned users")]) /\
  on_mute_user "0" (Some "AAAAAAAA") (Some "admin") true two_members
  = (two_members, [Callback "0" (RError "Only admin can mute users")]).
Proof.
  apply (admin_only_operations 9 "0" "AAAAAAAA" "admin" "9.9.9.9" true two_members
           two_members_session); by vm_compute.
Defined.

(** X18. The reading events ([get-public-keys], [typing],
    [message-delivered], [message-read], [get-banned-users], [mute-user],
    [get-session-info]) never change the server state, whatever their
    payload and whoever sends them. *)
Theorem read_only_events_keep_state sec now ev s :
  read_only ev = true -> (step sec now ev s).1 = s.
Proof.
  destruct ev; try done; intros _;
    unfold step, handle, on_get_public_keys, on_typing, on_message_status,
      on_get_banned_users, on_mute_user, on_get_session_info;
    by repeat case_match.
Qed.

Lemma read_only_events_keep_state_witness :
  (step index_security 9 (MuteUser "admin" (Some "AAAAAAAA") (Some "0") true)
        two_members).1 = two_members.
Proof. by apply read_only_events_keep_state. Defined.


Lemma truthy_Some x : x <> "" -> truthy (Some x) = true.
Proof. by destruct x. Qed.

(** X20. A kick by the admin. In a reachable state, when the admin of a
    session kicks another member whose socket is connected with a known
    address: the target is no longer among the members, the ban table holds
    the target's address with the target's nickname and the current time,
    the admin is unchanged, the target is told it was kicked and taken out
    of the room, the room is told the new member count, the admin gets the
    new ban list and a success answer; the limiter and the connection table
    are untouched. *)
Theorem kick_user_success sec s now sid code target u ip session :
  reachable sec s ->
  code <> "" -> target <> "" -> ip <> "" ->
  getSession code (manager s) = Some session ->
  adminId session = sid ->
  target <> sid ->
  JsMap.get target (users session) = Some u ->
  connected s !! target = Some (Some ip) ->
  let '(s', outs) := on_kick_user now sid (Some code) (Some target) s in
  (exists session',
      getSession code (manager s') = Some session' /\
      users session' = JsMap.delete target (users session) /\
      JsMap.has target (users session') = false /\
      JsMap.get ip (bannedUsers session')
      = Some (mkBanInfo (nickname u) now "Kicked by admin") /\
      adminId session' = sid) /\
  outs = [RoomLeave target code; EmitTo target Kicked;
          EmitRoom code None
            (UserKicked (nickname u) (JsMap.size (users session) - 1));
          EmitTo sid (BannedUsersUpdated (getBannedUsers code (manager s')));
          Callback sid RSuccess] /\
  limiter s' = limiter s /\
  connected s' = connected s.
Proof.
  intros Hr Hc Ht Hi Hg Ha Hne Hu Hconn.
  pose proof (reachable_registry_wf _ _ Hr) as Hwf.
  unfold getSession in Hg.
  destruct (registry_wf_get _ _ _ Hwf Hg) as (_ & Huwf & _). simpl in Huwf.
  assert (Hhas : JsMap.has target (users session) = true)
    by (unfold JsMap.has; by rewrite Hu).
  unfold on_kick_user.
  rewrite !truthy_Some by done. cbn [negb orb default]. unfold Datatypes.id.
  unfold getSession at 1. rewrite Hg, Ha, String.eqb_refl.
  cbn [negb]. destruct (String.eqb_spec target sid) as [|_]; [done|].
  rewrite Hu, Hconn. rewrite truthy_Some by done.
  unfold banUser, getSession. rewrite Hg. rewrite truthy_Some by done.
  cbn [default snd sessions]. unfold Datatypes.id.
  rewrite JsMapFacts.get_set_eq. cbn [default]. unfold Datatypes.id.
  split.
  - eexists. split; [apply JsMapFacts.get_set_eq|]. simpl.
    split; [done|]. split; [by apply has_delete_eq|].
    split; [apply JsMapFacts.get_set_eq | done].
  - split; [|done]. simpl. do 3 f_equal. do 2 f_equal.
    unfold JsMap.size. rewrite <- (length_delete_has _ _ Hhas). lia.
Qed.

Lemma kick_user_success_witness :
  let '(s', outs) :=
    on_kick_user 3 "admin" (Some "AAAAAAAA") (Some "0") two_members in
  (exists session',
      getSession "AAAAAAAA" (manager s') = Some session' /\
      users session' = JsMap.delete "0" (users two_members_session) /\
      JsMap.has "0" (users session') = false /\
      JsMap.get "10.0.0.0" (bannedUsers session')
      = Some (mkBanInfo (nickname (mkUser "0" "Guest" 0 false (Some "10.0.0.0")))
                        3 "Kicked by admin") /\
      adminId session' = "admin") /\
  outs = [RoomLeave "0" "AAAAAAAA"; EmitTo "0" Kicked;
          EmitRoom "AAAAAAAA" None
            (UserKicked (nickname (mkUser "0" "Guest" 0 false (Some "10.0.0.0")))
                        (JsMap.size (users two_members_session) - 1));
          EmitTo "admin"
            (BannedUsersUpdated (getBannedUsers "AAAAAAAA" (manager s')));
          Callback "admin" RSuccess] /\
  limiter s' = limiter two_members /\
  connected s' = connected two_members.
Proof.
  apply (kick_user_success index_security two_members 3 "admin" "AAAAAAAA" "0"
           (mkUser "0" "Guest" 0 false (Some "10.0.0.0")) "10.0.0.0"
           two_members_session two_members_reachable); by vm_compute.
Defined.

(** * Properties of the input checks of index.js *)


Lemma of_chars_chars s : of_chars (chars s) = s.
Proof. apply string_of_list_ascii_of_string. Qed.

















(** ** Nonces *)

Lemma sweepNonces_lookup now store k :
  sweepNonces now store !! k =
  match store !! k with
  | Some t => if now - t >? NONCE_EXPIRY then None else Some t
  | None => None
  end.
Proof.
  unfold sweepNonces. destruct (store !! k) as [t|] eqn:E.
  - destruct (Z.gtb_spec (now - t) NONCE_EXPIRY).
    + apply map_lookup_filter_None. right. intros x Hx. simpl.
      rewrite E in Hx. injection Hx as <-. lia.
    + apply map_lookup_filter_Some. split; [done|]. simpl. lia.
  - apply map_lookup_filter_None. by left.
Qed.

(** X25. Replay protection. A nonce is accepted exactly when it is not
    stored; once accepted at time [now] it is refused at any later check,
    also after every sweep run no more than [NONCE_EXPIRY] ms after [now];
    a sweep run later than that forgets it, and the same nonce is accepted
    again. *)
Theorem nonce_replay now nonce store :
  nonce <> "" ->
  let '(ok, store') := checkAndStoreNonce now (Some nonce) store in
  (ok = true <-> store !! nonce = None) /\
  (forall later, (checkAndStoreNonce later (Some nonce) store').1 = false) /\
  (ok = true ->
   forall sweep later,
     (checkAndStoreNonce later (Some nonce) (sweepNonces sweep store')).1
     = (sweep - now >? NONCE_EXPIRY)).
Proof.
  intros Hn. unfold checkAndStoreNonce. rewrite truthy_Some by done. simpl.
  destruct (store !! nonce) as [t|] eqn:E.
  - split; [done|]. split; [|done]. intros later. by rewrite E.
  - split; [done|]. split.
    + intros later. by rewrite lookup_insert_eq.
    + intros _ sweep later. rewrite sweepNonces_lookup, lookup_insert_eq.
      by destruct (_ >? _).
Qed.

Lemma nonce_replay_witness :
  let '(ok, store') := checkAndStoreNonce 10 (Some "n-1") ∅ in
  (ok = true <-> (∅ : gmap string Z) !! "n-1" = None) /\
  (forall later, (checkAndStoreNonce later (Some "n-1") store').1 = false) /\
  (ok = true ->
   forall sweep later,
     (checkAndStoreNonce later (Some "n-1") (sweepNonces sweep store')).1
     = (sweep - 10 >? NONCE_EXPIRY)).
Proof. apply (nonce_replay 10 "n-1" ∅). discriminate. Defined.

(** ** Connections per address *)

(** X26. The per-address connection count. While every stored count is
    between 1 and 5: a handshake is refused, changing nothing, when 5000
    clients are connected or the address already has five connections;
    otherwise it is admitted, the counts stay between 1 and 5, and when
    that connection closes the table is again exactly what it was before
    the handshake. Closing a connection keeps the counts in range. *)
Theorem connection_counts clientsCount ip table :
  counts_in_range table ->
  let '(admitted, table') := connectionMiddleware clientsCount ip table in
  (admitted = false <->
   clientsCount >= MAX_TOTAL_CONNECTIONS \/ table !! ip = Some MAX_CONNECTIONS_PER_IP) /\
  (admitted = false -> table' = table) /\
  (admitted = true ->
   counts_in_range table' /\ connectionClosed ip table' = table) /\
  counts_in_range (connectionClosed ip table).
Proof.
  intros Hr. unfold connectionMiddleware, MAX_TOTAL_CONNECTIONS, MAX_CONNECTIONS_PER_IP.
  assert (Hclose : counts_in_range (connectionClosed ip table)).
  { unfold connectionClosed. intros k c.
    destruct (table !! ip) as [n|] eqn:E.
    - pose proof (Hr _ _ E) as Hn. unfold MAX_CONNECTIONS_PER_IP in *.
      destruct (Z.eqb_spec n 0); [lia|].
      destruct (Z.leb_spec n 1).
      + intros Hk. destruct (decide (ip = k)) as [->|Hne].
        * by rewrite lookup_delete_eq in Hk.
        * rewrite lookup_delete_ne in Hk by done. by apply (Hr k).
      + intros Hk. destruct (decide (ip = k)) as [->|Hne].
        * rewrite lookup_insert_eq in Hk. injection Hk as <-. lia.
        * rewrite lookup_insert_ne in Hk by done. by apply (Hr k).
    - simpl. intros Hk. destruct (decide (ip = k)) as [->|Hne].
      + by rewrite lookup_delete_eq in Hk.
      + rewrite lookup_delete_ne in Hk by done. by apply (Hr k). }
  destruct (Z.geb_spec clientsCount 5000).
  { split; [split; [left; lia | done]|]. by split; [|split]. }
  destruct (table !! ip) as [n|] eqn:E; simpl.
  - pose proof (Hr _ _ E) as Hn. unfold MAX_CONNECTIONS_PER_IP in Hn.
    destruct (Z.geb_spec n 5).
    + split; [split; [right; f_equal; lia | done]|]. by split; [|split].
    + split; [split; [done | intros [?|[= ?]]; lia]|]. split; [done|].
      split; [|done]. intros _. split.
      * intros k c. destruct (decide (ip = k)) as [->|Hne].
        -- rewrite lookup_insert_eq. intros [= <-].
           unfold MAX_CONNECTIONS_PER_IP. lia.
        -- rewrite lookup_insert_ne by done. apply Hr.
      * unfold connectionClosed. rewrite lookup_insert_eq.
        destruct (Z.eqb_spec (n + 1) 0); [lia|].
        destruct (Z.leb_spec (n + 1) 1); [lia|].
        rewrite insert_insert_eq. replace (n + 1 - 1) with n by lia.
        by apply insert_id.
  - split; [split; [done | intros [?|?]; [lia | done]]|]. split; [done|].
    split; [|done]. intros _. split.
    + intros k c. destruct (decide (ip = k)) as [->|Hne].
      * rewrite lookup_insert_eq. intros [= <-].
        unfold MAX_CONNECTIONS_PER_IP. lia.
      * rewrite lookup_insert_ne by done. apply Hr.
    + unfold connectionClosed. rewrite lookup_insert_eq. simpl.
      by apply delete_insert_id.
Qed.

Lemma connection_counts_witness :
  let '(admitted, table') :=
    connectionMiddleware 12 "6.6.6.6" {["6.6.6.6" := 4]} in
  (admitted = false <->
   12 >= MAX_TOTAL_CONNECTIONS \/
   ({["6.6.6.6" := 4]} : gmap string Z) !! "6.6.6.6" = Some MAX_CONNECTIONS_PER_IP) /\
  (admitted = false -> table' = {["6.6.6.6" := 4]}) /\
  (admitted = true ->
   counts_in_range table' /\ connectionClosed "6.6.6.6" table' = {["6.6.6.6" := 4]}) /\
  counts_in_range (connectionClosed "6.6.6.6" {["6.6.6.6" := 4]}).
Proof.
  apply (connection_counts 12 "6.6.6.6" {["6.6.6.6" := 4]}).
  intros k c Hk. apply lookup_singleton_Some in Hk as [_ <-]. by vm_compute.
Defined.

(** ** Sanitizing *)














